(** * aave_tvl: the TVL reduction of [aave_test1.py]

    A shallow embedding of [get_aave_reserves_data], [calculate_total_tvl]
    and [main], with the Python operations they use, and the properties of
    the numeric pipeline.

    Python values are dynamically typed, so the embedding works over a
    universe [pyval] of the values an ABI decoder or a test can hand to the
    reducer (None, bool, int, float, str, list/tuple).  Python's [float] is
    IEEE 754 binary64; it is modelled by [spec_float] at precision 53 and
    maximal exponent 1024, with the rounding functions of [SpecFloat].
    Python's [int] is unbounded and is modelled by [Z].  Exhaustion of
    memory or time (a power of ten with an astronomic exponent) and what
    [print] does to the terminal are outside the model: printing is kept
    as the list of lines printed.  Building the text of a line is part of
    the model: an f-string that formats a value calls [str] on it, which
    can raise; the line is then not printed and the exception goes where
    the code sends it. *)

From Stdlib Require Import ZArith Lia Bool String Ascii SpecFloat.
From stdpp Require Import base list.

#[local] Set Warnings "-register-all".
Local Open Scope Z_scope.

(** ** Binary64 arithmetic *)

Module F.

Definition prec : Z := 53.
Definition emax : Z := 1024.

Definition zero : spec_float := S754_zero false.
Definition add : spec_float -> spec_float -> spec_float := SFadd prec emax.
Definition mul : spec_float -> spec_float -> spec_float := SFmul prec emax.
Definition div : spec_float -> spec_float -> spec_float := SFdiv prec emax.

(** [x == 0.0] and [x > 0.0] on floats (both false on NaN). *)
Definition eq_zero (x : spec_float) : bool := SFeqb x zero.
Definition gt_zero (x : spec_float) : bool := SFltb zero x.

(** The integer [n] rounded to the nearest float, ties to even; an
    infinity when [n] is beyond the largest finite float. *)
Definition of_Z (n : Z) : spec_float := binary_normalize prec emax n 0 false.

(** The quotient [a / b] of two integers ([b <> 0]) rounded once to the
    nearest float, ties to even.  The sign of a zero quotient follows the
    signs of the operands. *)
Definition div_Z (a b : Z) : spec_float :=
  let s := xorb (a <? 0) (b <? 0) in
  if a =? 0 then S754_zero s
  else
    let '(q, e, l) := SFdiv_core_binary prec emax (Z.abs a) 0 (Z.abs b) 0 in
    binary_round_aux prec emax s q e l.

(** [0.5], [1.0] and [2.0]: the mantissa is [2^52]. *)
Definition half : spec_float := S754_finite false 4503599627370496 (-53).
Definition one : spec_float := S754_finite false 4503599627370496 (-52).
Definition two : spec_float := S754_finite false 4503599627370496 (-51).

Definition is_infinity (x : spec_float) : bool :=
  match x with S754_infinity _ => true | _ => false end.

End F.

Abbreviation float := spec_float.

(** ** Python values, exceptions and results *)

(** [VTuple] stands for a list or a tuple: the program only indexes,
    measures and iterates them, which both do alike. *)
Inductive pyval : Type :=
| VNone
| VBool (b : bool)
| VInt (n : Z)
| VFloat (f : float)
| VStr (s : string)
| VTuple (items : list pyval).

Inductive exn_class : Type :=
| IndexError
| TypeError
| ZeroDivisionError
| OverflowError
| ValueError
| ConnectionError
| FileNotFoundError
| ContractLogicError
| Exception.

(** The text of an exception.  The interpreter's own messages are not
    spelled out; the messages the program builds keep their structure. *)
Inductive exn_msg : Type :=
| MsgInterpreter
| MsgText (s : string)
| MsgUnexpectedFormat (is_sequence : bool) (len : option nat)
| MsgPrefixed (prefix : string) (inner : exn_msg).

Record pyexn : Type := mk_exn { exn_cls : exn_class; exn_text : exn_msg }.

Definition raised (c : exn_class) : pyexn := mk_exn c MsgInterpreter.

Inductive py_result (A : Type) : Type :=
| Ok (a : A)
| Raise (e : pyexn).
Arguments Ok {A} a.
Arguments Raise {A} e.

Definition bind {A B} (r : py_result A) (k : A -> py_result B) : py_result B :=
  match r with
  | Ok a => k a
  | Raise e => Raise e
  end.

Declare Scope py_scope.
Delimit Scope py_scope with py.
Notation "x <- r ;; k" := (bind r (fun x => k))
  (at level 100, r at next level, right associativity) : py_scope.
Local Open Scope py_scope.

(** ** The operations left to the platform

    Three library routines are not defined here: C's [pow], which Python
    calls for [10 ** y] when [y] is a float or a negative int; the
    parser behind [float(s)] for a string [s]; and [str], which an
    f-string calls on a value it formats without a format specification
    ([format_value]).

    [str] does not fail on [None], a bool, a float or a str.  On an int
    it raises [ValueError] when the int has more decimal digits than the
    interpreter allows ([sys.int_max_str_digits]: 4300 by default since
    CPython 3.11, no limit before, and no limit below 640 can be set).
    On a list or a tuple it fails when it fails on an item, or when the
    nesting is too deep for the interpreter. *)
Class Platform : Type := {
  float_pow10 : float -> py_result float;
  float_of_str : string -> py_result float;
  format_value : pyval -> py_result unit;
  format_none : format_value VNone = Ok tt;
  format_bool : forall b, format_value (VBool b) = Ok tt;
  format_float : forall f, format_value (VFloat f) = Ok tt;
  format_str : forall s, format_value (VStr s) = Ok tt;
  format_int : forall n, Z.abs n < 10 ^ 640 -> format_value (VInt n) = Ok tt
}.

(** ** Python operations used by the reducer *)

(** [float(n)] for an int: [OverflowError] when [n] is too large. *)
Definition float_of_int (n : Z) : py_result float :=
  let f := F.of_Z n in
  if F.is_infinity f then Raise (raised OverflowError) else Ok f.

(** [a / b] for two ints. *)
Definition int_truediv (a b : Z) : py_result float :=
  if b =? 0 then Raise (raised ZeroDivisionError)
  else
    let f := F.div_Z a b in
    if F.is_infinity f then Raise (raised OverflowError) else Ok f.

(** [a / b] for two floats. *)
Definition float_truediv (a b : float) : py_result float :=
  if F.eq_zero b then Raise (raised ZeroDivisionError) else Ok (F.div a b).

(** The numeric tower: bool is an int. *)
Inductive number : Type :=
| NInt (n : Z)
| NFloat (f : float).

Definition to_number (v : pyval) : option number :=
  match v with
  | VBool b => Some (NInt (Z.b2z b))
  | VInt n => Some (NInt n)
  | VFloat f => Some (NFloat f)
  | VNone | VStr _ | VTuple _ => None
  end.

Definition number_to_float (x : number) : py_result float :=
  match x with
  | NInt n => float_of_int n
  | NFloat f => Ok f
  end.

(** [v[k]] for a constant index [k >= 0]. *)
Definition py_getitem (v : pyval) (k : nat) : py_result pyval :=
  match v with
  | VTuple items =>
      match items !! k with
      | Some x => Ok x
      | None => Raise (raised IndexError)
      end
  | VStr s =>
      match String.get k s with
      | Some c => Ok (VStr (String c EmptyString))
      | None => Raise (raised IndexError)
      end
  | VNone | VBool _ | VInt _ | VFloat _ => Raise (raised TypeError)
  end.

(** The elements [len(v)] counts and [enumerate(v)] yields. *)
Definition py_items (v : pyval) : py_result (list pyval) :=
  match v with
  | VTuple items => Ok items
  | VStr s => Ok (map (fun c => VStr (String c EmptyString)) (list_ascii_of_string s))
  | VNone | VBool _ | VInt _ | VFloat _ => Raise (raised TypeError)
  end.

(** Truth value, as [not v] and [if v] take it. *)
Definition py_truthy (v : pyval) : bool :=
  match v with
  | VNone => false
  | VBool b => b
  | VInt n => negb (n =? 0)
  | VFloat f => negb (F.eq_zero f)
  | VStr s => negb (String.length s =? 0)%nat
  | VTuple items => negb (length items =? 0)%nat
  end.

(** [v > 0]. *)
Definition py_gt_zero (v : pyval) : py_result bool :=
  match to_number v with
  | Some (NInt n) => Ok (0 <? n)
  | Some (NFloat f) => Ok (F.gt_zero f)
  | None => Raise (raised TypeError)
  end.

(** [v == 0]: never raises. *)
Definition py_eq_zero (v : pyval) : bool :=
  match to_number v with
  | Some (NInt n) => n =? 0
  | Some (NFloat f) => F.eq_zero f
  | None => false
  end.

Section WithPlatform.
Context `{Platform}.

(** [float(v)]. *)
Definition py_float (v : pyval) : py_result float :=
  match v with
  | VStr s => float_of_str s
  | _ =>
      match to_number v with
      | Some x => number_to_float x
      | None => Raise (raised TypeError)
      end
  end.

(** [10 ** v]: an int for an exponent that is a non-negative int, a float
    computed by [pow] otherwise. *)
Definition py_pow10 (v : pyval) : py_result number :=
  match to_number v with
  | Some (NInt n) =>
      if 0 <=? n then Ok (NInt (10 ^ n))
      else (y <- float_of_int n ;; r <- float_pow10 y ;; Ok (NFloat r))
  | Some (NFloat y) => r <- float_pow10 y ;; Ok (NFloat r)
  | None => Raise (raised TypeError)
  end.

(** [v / d] where [d] is already a number. *)
Definition py_truediv (v : pyval) (d : number) : py_result float :=
  match to_number v, d with
  | Some (NInt a), NInt b => int_truediv a b
  | Some x, _ =>
      a <- number_to_float x ;; b <- number_to_float d ;; float_truediv a b
  | None, _ => Raise (raised TypeError)
  end.

(** [x * v] and [x / v] where [x] is a float. *)
Definition float_mul_py (x : float) (v : pyval) : py_result float :=
  match to_number v with
  | Some y => b <- number_to_float y ;; Ok (F.mul x b)
  | None => Raise (raised TypeError)
  end.

Definition float_truediv_py (x : float) (v : pyval) : py_result float :=
  match to_number v with
  | Some y => b <- number_to_float y ;; float_truediv x b
  | None => Raise (raised TypeError)
  end.

(** ** [calculate_total_tvl] *)

(** Lines 81-84: the price of one reference-currency unit in USD. *)
Definition market_ref_currency_price_in_usd
    (market_ref_currency_price_in_usd_raw price_decimals : pyval) : py_result float :=
  positive <- py_gt_zero price_decimals ;;
  if (positive : bool) then
    d <- py_pow10 price_decimals ;;
    py_truediv market_ref_currency_price_in_usd_raw d
  else py_float market_ref_currency_price_in_usd_raw.

(** Lines 77-84: what is decoded from [base_currency_info] before the loop. *)
Definition decode_base (base_currency_info : pyval) : py_result (pyval * float) :=
  market_ref_currency_unit <- py_getitem base_currency_info 0 ;;
  market_ref_currency_price_in_usd_raw <- py_getitem base_currency_info 1 ;;
  price_decimals <- py_getitem base_currency_info 3 ;;
  price <- market_ref_currency_price_in_usd market_ref_currency_price_in_usd_raw price_decimals ;;
  Ok (market_ref_currency_unit, price).

(** Lines 94-102: the fields read from one reserve, in this order. *)
Record reserve_fields : Type := mk_fields {
  symbol : pyval;
  asset_decimals : pyval;
  is_active : pyval;
  is_frozen : pyval;
  available_liquidity_raw : pyval;
  total_scaled_variable_debt_raw : pyval;
  price_in_market_ref_currency : pyval
}.

Definition read_fields (reserve : pyval) : py_result reserve_fields :=
  symbol <- py_getitem reserve 2 ;;
  asset_decimals <- py_getitem reserve 3 ;;
  is_active <- py_getitem reserve 10 ;;
  is_frozen <- py_getitem reserve 11 ;;
  available_liquidity_raw <- py_getitem reserve 20 ;;
  total_scaled_variable_debt_raw <- py_getitem reserve 21 ;;
  price_in_market_ref_currency <- py_getitem reserve 22 ;;
  Ok (mk_fields symbol asset_decimals is_active is_frozen available_liquidity_raw
                total_scaled_variable_debt_raw price_in_market_ref_currency).

(** Line 105: [not is_active or is_frozen]. *)
Definition skipped_by_gate (fs : reserve_fields) : bool :=
  negb (py_truthy (is_active fs)) || py_truthy (is_frozen fs).

(** Lines 112-115. *)
Definition normalized_total_supplied_asset (fs : reserve_fields) : py_result float :=
  let total_supplied_asset_raw := available_liquidity_raw fs in
  d <- py_pow10 (asset_decimals fs) ;;
  py_truediv total_supplied_asset_raw d.

(** Lines 121-122. *)
Definition value_in_market_ref_currency (normalized : float)
    (price_in_market_ref_currency market_ref_currency_unit : pyval) : py_result float :=
  scaled <- float_mul_py normalized price_in_market_ref_currency ;;
  float_truediv_py scaled market_ref_currency_unit.

(** Where the computation of the [try] block arrives when it does not
    raise: the gate of line 105, the guard of line 117, or line 127 with
    a value to add. *)
Inductive body_outcome : Type :=
| Ineligible
| ZeroUnit (symbol : pyval)
| Counted (symbol : pyval) (normalized value_in_usd : float).

(** Lines 105-125, on the fields read. *)
Definition process_fields (market_ref_currency_unit : pyval) (price_in_usd : float)
    (fs : reserve_fields) : py_result body_outcome :=
  if skipped_by_gate fs then Ok Ineligible
  else
    normalized <- normalized_total_supplied_asset fs ;;
    if py_eq_zero market_ref_currency_unit then Ok (ZeroUnit (symbol fs))
    else
      in_ref <- value_in_market_ref_currency normalized (price_in_market_ref_currency fs)
                  market_ref_currency_unit ;;
      let value_in_usd := F.mul in_ref price_in_usd in
      Ok (Counted (symbol fs) normalized value_in_usd).

(** Lines 94-125: what the [try] block computes for one reserve, up to
    the value that line 127 adds to the total.  The two [print]s of the
    block, on lines 118 and 129-130, come with [try_block] below. *)
Definition reserve_body (market_ref_currency_unit : pyval) (price_in_usd : float)
    (reserve : pyval) : py_result body_outcome :=
  fs <- read_fields reserve ;;
  process_fields market_ref_currency_unit price_in_usd fs.

(** What the reducer prints: the heading lines of lines 86-88 as one
    ([LogHeading] for lines 86-87 alone, when the text of line 88 cannot
    be built), then line 89, then one line per reserve that is not
    skipped silently. *)
Inductive log_line : Type :=
| LogHeading (price_in_usd : float)
| LogHeader (price_in_usd : float) (market_ref_currency_unit : pyval)
| LogProcessing (count : nat)
| LogZeroUnit (symbol : pyval)
| LogReserve (ordinal : nat) (symbol : pyval) (normalized value_in_usd : float)
| LogIndexError (ordinal : nat)
| LogUnknownError (ordinal : nat) (e : pyexn).

(** How the [try] block of lines 92-130 ends for one reserve: at the
    [continue] of line 107; at the [continue] of line 119, line 118
    printed; at its last statement, the value added on line 127 and
    lines 129-130 printed; or with an exception, raised before line 127
    or after it, the value then already added. *)
Inductive try_end : Type :=
| EndSkipped
| EndZeroUnit (symbol : pyval)
| EndCounted (symbol : pyval) (normalized value_in_usd : float)
| EndRaised (added : option float) (e : pyexn).

(** The f-strings of lines 118 and 129-130 format [symbol]; the floats
    of lines 129-130 have a format specification of their own and the
    ordinal is a small int. *)
Definition try_block (market_ref_currency_unit : pyval) (price_in_usd : float)
    (reserve : pyval) : try_end :=
  match reserve_body market_ref_currency_unit price_in_usd reserve with
  | Raise e => EndRaised None e
  | Ok Ineligible => EndSkipped
  | Ok (ZeroUnit symbol) =>
      match format_value symbol with
      | Ok _ => EndZeroUnit symbol
      | Raise e => EndRaised None e
      end
  | Ok (Counted symbol normalized value_in_usd) =>
      match format_value symbol with
      | Ok _ => EndCounted symbol normalized value_in_usd
      | Raise e => EndRaised (Some value_in_usd) e
      end
  end.

(** The accumulator [total_tvl_in_usd] and the lines printed so far. *)
Record loop_state : Type := mk_state { total_tvl_in_usd : float; printed : list log_line }.

Definition say (l : log_line) (st : loop_state) : loop_state :=
  mk_state (total_tvl_in_usd st) (printed st ++ [l]).

(** Line 127. *)
Definition add_value (value_in_usd : float) (st : loop_state) : loop_state :=
  mk_state (F.add (total_tvl_in_usd st) value_in_usd) (printed st).

(** Lines 132-135: the two handlers. *)
Definition handle (i : nat) (e : pyexn) (st : loop_state) : loop_state :=
  match exn_cls e with
  | IndexError => say (LogIndexError (i + 1)) st
  | _ => say (LogUnknownError (i + 1) e) st
  end.

(** One iteration of the loop of lines 91-135, [i] counting from 0.  A
    handler runs in the state the [try] block left. *)
Definition loop_step (market_ref_currency_unit : pyval) (price_in_usd : float)
    (st : loop_state) (i : nat) (reserve : pyval) : loop_state :=
  match try_block market_ref_currency_unit price_in_usd reserve with
  | EndSkipped => st
  | EndZeroUnit symbol => say (LogZeroUnit symbol) st
  | EndCounted symbol normalized value_in_usd =>
      say (LogReserve (i + 1) symbol normalized value_in_usd) (add_value value_in_usd st)
  | EndRaised None e => handle i e st
  | EndRaised (Some value_in_usd) e => handle i e (add_value value_in_usd st)
  end.

Fixpoint loop (market_ref_currency_unit : pyval) (price_in_usd : float)
    (st : loop_state) (i : nat) (reserves : list pyval) : loop_state :=
  match reserves with
  | [] => st
  | reserve :: rest =>
      loop market_ref_currency_unit price_in_usd
           (loop_step market_ref_currency_unit price_in_usd st i reserve) (S i) rest
  end.

Definition initial_state (market_ref_currency_unit : pyval) (price_in_usd : float)
    (count : nat) : loop_state :=
  mk_state F.zero [LogHeader price_in_usd market_ref_currency_unit; LogProcessing count].

(** The whole function: the value returned or the exception raised, with
    the lines printed on the way.  Lines 77-89 are outside the [try]
    block: what step 1, the f-string of line 88 or [len] raises leaves
    the function. *)
Definition calculate_total_tvl (reserves_data base_currency_info : pyval)
    : py_result float * list log_line :=
  match decode_base base_currency_info with
  | Raise e => (Raise e, [])
  | Ok (market_ref_currency_unit, price) =>
      match format_value market_ref_currency_unit with
      | Raise e => (Raise e, [LogHeading price])
      | Ok _ =>
          match py_items reserves_data with
          | Raise e => (Raise e, [LogHeader price market_ref_currency_unit])
          | Ok reserves =>
              let st := loop market_ref_currency_unit price
                             (initial_state market_ref_currency_unit price (length reserves))
                             0 reserves in
              (Ok (total_tvl_in_usd st), printed st)
          end
      end
  end.

(** What one reserve adds to the total, if anything: the value that
    reaches line 127.  The total is the sum of these in input order. *)
Definition contribution (market_ref_currency_unit : pyval) (price_in_usd : float)
    (reserve : pyval) : option float :=
  match reserve_body market_ref_currency_unit price_in_usd reserve with
  | Ok (Counted _ _ value_in_usd) => Some value_in_usd
  | _ => None
  end.

Definition add_contribution (market_ref_currency_unit : pyval) (price_in_usd : float)
    (total : float) (reserve : pyval) : float :=
  match contribution market_ref_currency_unit price_in_usd reserve with
  | Some value_in_usd => F.add total value_in_usd
  | None => total
  end.

Definition sum_contributions (market_ref_currency_unit : pyval) (price_in_usd : float)
    (reserves : list pyval) : float :=
  fold_left (add_contribution market_ref_currency_unit price_in_usd) reserves F.zero.

(** ** [get_aave_reserves_data] *)

Definition is_list_or_tuple (v : pyval) : bool :=
  match v with VTuple _ => true | _ => false end.

Definition py_len (v : pyval) : option nat :=
  match v with
  | VTuple items => Some (length items)
  | VStr s => Some (String.length s)
  | _ => None
  end.

(** Line 59: [isinstance(result, (list, tuple)) and len(result) == 2]. *)
Definition is_pair (result : pyval) : bool :=
  match result with
  | VTuple items => (length items =? 2)%nat
  | _ => false
  end.

(** Lines 60-61: the [ValueError] for a response of another shape. *)
Definition unexpected_response_format (result : pyval) : pyexn :=
  mk_exn ValueError
         (MsgUnexpectedFormat (is_list_or_tuple result)
            (if is_list_or_tuple result then py_len result else None)).

(** Lines 54-62: the body of the [try] block, given what the contract
    call of lines 54-58 returned or raised. *)
Definition fetch_body (call : py_result pyval) : py_result (pyval * pyval) :=
  result <- call ;;
  if negb (is_pair result) then Raise (unexpected_response_format result)
  else
    reserves_data <- py_getitem result 0 ;;
    base_currency_info <- py_getitem result 1 ;;
    Ok (reserves_data, base_currency_info).

(** Lines 63-66: the two handlers; every class here derives from
    [Exception], so the second catches whatever the first does not. *)
Definition get_aave_reserves_data (call : py_result pyval) : py_result (pyval * pyval) :=
  match fetch_body call with
  | Ok fetched => Ok fetched
  | Raise e =>
      match exn_cls e with
      | ContractLogicError =>
          Raise (mk_exn ContractLogicError
                   (MsgPrefixed "Contract logic error when calling getReservesData: "
                                (exn_text e)))
      | _ =>
          Raise (mk_exn Exception
                   (MsgPrefixed "Unknown error while fetching reserve data: " (exn_text e)))
      end
  end.

(** ** [connect_to_web3], [load_abi] and [main] *)

Definition connect_to_web3 (is_connected : bool) : py_result unit :=
  if is_connected then Ok tt
  else Raise (mk_exn ConnectionError (MsgText "Failed to connect to Ethereum network")).

Inductive abi_file : Type :=
| AbiMissing
| AbiInvalidJson
| AbiLoaded.

Definition load_abi (f : abi_file) : py_result unit :=
  match f with
  | AbiMissing => Raise (mk_exn FileNotFoundError (MsgText "ABI file not found"))
  | AbiInvalidJson => Raise (mk_exn ValueError (MsgText "Invalid JSON format in ABI file"))
  | AbiLoaded => Ok tt
  end.

(** What [main] ends by printing. *)
Inductive report : Type :=
| ReportTvl (tvl_result : float)
| ReportError (e : pyexn)
| ReportUnknownCriticalError (e : pyexn).

(** Line 164: the classes of the first [except] clause of [main]. *)
Definition is_expected_error (c : exn_class) : bool :=
  match c with
  | ConnectionError | FileNotFoundError | ValueError | ContractLogicError => true
  | _ => false
  end.

Definition main (is_connected : bool) (abi : abi_file) (call : py_result pyval) : report :=
  let body :=
    _ <- connect_to_web3 is_connected ;;
    _ <- load_abi abi ;;
    fetched <- get_aave_reserves_data call ;;
    fst (calculate_total_tvl (fst fetched) (snd fetched)) in
  match body with
  | Ok tvl_result => ReportTvl tvl_result
  | Raise e =>
      if is_expected_error (exn_cls e) then ReportError e else ReportUnknownCriticalError e
  end.

End WithPlatform.

(** ** The data model and the reduction as the specification words them *)

Module Spec.

Record ReserveRecord : Type := {
  symbol : string;
  assetDecimals : Z;
  isActive : bool;
  isFrozen : bool;
  availableLiquidity : Z;
  totalScaledVariableDebt : Z;
  priceInMarketReferenceCurrency : Z
}.

Record BaseCurrencyInfo : Type := {
  marketReferenceCurrencyUnit : Z;
  marketReferenceCurrencyPriceInUsd : Z;
  priceDecimals : Z
}.

(** Step 1. *)
Definition priceInUsd (b : BaseCurrencyInfo) : float :=
  if 0 <? priceDecimals b
  then F.div_Z (marketReferenceCurrencyPriceInUsd b) (10 ^ priceDecimals b)
  else F.of_Z (marketReferenceCurrencyPriceInUsd b).

(** Step 2, items 1 to 6. *)
Definition eligible (r : ReserveRecord) : bool := isActive r && negb (isFrozen r).

Definition suppliedNormalized (r : ReserveRecord) : float :=
  F.div_Z (availableLiquidity r) (10 ^ assetDecimals r).

Definition valueInRef (b : BaseCurrencyInfo) (r : ReserveRecord) : float :=
  F.div (F.mul (suppliedNormalized r) (F.of_Z (priceInMarketReferenceCurrency r)))
        (F.of_Z (marketReferenceCurrencyUnit b)).

Definition valueInUsd (b : BaseCurrencyInfo) (r : ReserveRecord) : float :=
  F.mul (valueInRef b r) (priceInUsd b).

(** Item 7, over the records in input order. *)
Definition total (b : BaseCurrencyInfo) (rs : list ReserveRecord) : float :=
  fold_left (fun acc r => if eligible r then F.add acc (valueInUsd b r) else acc) rs F.zero.

End Spec.

(** An integer whose magnitude is below [2^1023] converts to a finite
    float; every 256-bit on-chain word is one. *)
Definition fits_float (n : Z) : Prop := Z.abs n < 2 ^ 1023.

Record wf_reserve (r : Spec.ReserveRecord) : Prop := {
  wf_decimals : 0 <= Spec.assetDecimals r;
  wf_liquidity : fits_float (Spec.availableLiquidity r);
  wf_price : fits_float (Spec.priceInMarketReferenceCurrency r)
}.

Record wf_base_info (b : Spec.BaseCurrencyInfo) : Prop := {
  wf_unit_nonzero : Spec.marketReferenceCurrencyUnit b <> 0;
  wf_unit : fits_float (Spec.marketReferenceCurrencyUnit b);
  wf_price_in_usd : fits_float (Spec.marketReferenceCurrencyPriceInUsd b)
}.

(** How the decoded response carries a record: the fields at the
    positions the reducer reads, whatever the other positions hold. *)
Definition fields_of (r : Spec.ReserveRecord) : reserve_fields :=
  mk_fields (VStr (Spec.symbol r)) (VInt (Spec.assetDecimals r))
            (VBool (Spec.isActive r)) (VBool (Spec.isFrozen r))
            (VInt (Spec.availableLiquidity r)) (VInt (Spec.totalScaledVariableDebt r))
            (VInt (Spec.priceInMarketReferenceCurrency r)).

Definition encodes_reserve (r : Spec.ReserveRecord) (v : pyval) : Prop :=
  read_fields v = Ok (fields_of r).

Definition base_tuple (b : Spec.BaseCurrencyInfo) (unused : pyval) (rest : list pyval) : pyval :=
  VTuple (VInt (Spec.marketReferenceCurrencyUnit b)
          :: VInt (Spec.marketReferenceCurrencyPriceInUsd b)
          :: unused
          :: VInt (Spec.priceDecimals b) :: rest).


(** A reserve for which the [try] block raises before line 127 adds
    anything. *)
Definition fails_before_adding `{Platform} (b : Spec.BaseCurrencyInfo) (v : pyval) : Prop :=
  exists e,
    try_block (VInt (Spec.marketReferenceCurrencyUnit b)) (Spec.priceInUsd b) v
    = EndRaised None e.

(** A reserves list against the records it carries: at each position a
    well-formed record as the decoder lays it out, or such a reserve. *)
Definition carries `{Platform} (b : Spec.BaseCurrencyInfo)
    (entry : option Spec.ReserveRecord) (v : pyval) : Prop :=
  match entry with
  | Some r => wf_reserve r /\ encodes_reserve r v
  | None => fails_before_adding b v
  end.

(** The records of such a list, in input order. *)
Definition records_of (entries : list (option Spec.ReserveRecord)) : list Spec.ReserveRecord :=
  omap id entries.

(** A value that is not a sequence. *)
Definition not_subscriptable (v : pyval) : bool :=
  match v with
  | VNone | VBool _ | VInt _ | VFloat _ => true
  | VStr _ | VTuple _ => false
  end.

(** The same reserve with another [totalScaledVariableDebt]. *)
Definition set_debt (debt : pyval) (reserve : pyval) : pyval :=
  match reserve with
  | VTuple items => VTuple (<[21%nat := debt]> items)
  | _ => reserve
  end.

(** ** Inputs for the examples *)

(** [str] as CPython 3.11 has it by default: an int of more than 4300
    decimal digits, alone or in a list or tuple, raises [ValueError]. *)
Definition int_max_str_digits : Z := 4300.

Fixpoint exceeds_str_digits (v : pyval) : bool :=
  match v with
  | VInt n => 10 ^ int_max_str_digits <=? Z.abs n
  | VTuple items => existsb exceeds_str_digits items
  | _ => false
  end.

Definition cpython_format (v : pyval) : py_result unit :=
  if exceeds_str_digits v then Raise (raised ValueError) else Ok tt.

(** A platform for the examples, none of which reaches [pow] or parses
    a string: it refuses both. *)
Definition example_platform : Platform.
Proof.
  refine {| float_pow10 := fun _ => Raise (raised OverflowError);
            float_of_str := fun _ => Raise (raised ValueError);
            format_value := cpython_format |}; try reflexivity.
  intros n Hn. unfold cpython_format, exceeds_str_digits.
  destruct (Z.leb_spec (10 ^ int_max_str_digits) (Z.abs n)) as [Hle|_]; [|reflexivity].
  exfalso. apply (Z.lt_irrefl (Z.abs n)).
  eapply Z.lt_le_trans; [exact Hn|]. eapply Z.le_trans; [|exact Hle].
  apply Z.pow_le_mono_r; unfold int_max_str_digits; lia.
Defined.

(** A reserve as [getReservesData] lays it out, with the fields the
    reducer does not read filled in arbitrarily. *)
Definition example_reserve (sym : string) (decimals : Z) (active frozen : bool)
    (liquidity debt price : Z) : pyval :=
  VTuple [VStr "0xA0b8"; VStr "name"; VStr sym; VInt decimals;
          VInt 7700; VInt 8000; VInt 10450; VInt 1000; VBool true; VBool true;
          VBool active; VBool frozen;
          VInt 1; VInt 1; VInt 0; VInt 0; VInt 1700000000;
          VStr "0x98C2"; VStr "0x72E9"; VStr "0xD4b2";
          VInt liquidity; VInt debt; VInt price].

Definition example_record (sym : string) (decimals : Z) (active frozen : bool)
    (liquidity debt price : Z) : Spec.ReserveRecord :=
  {| Spec.symbol := sym; Spec.assetDecimals := decimals;
     Spec.isActive := active; Spec.isFrozen := frozen;
     Spec.availableLiquidity := liquidity; Spec.totalScaledVariableDebt := debt;
     Spec.priceInMarketReferenceCurrency := price |}.

Definition example_base (unit raw decimals : Z) : pyval :=
  VTuple [VInt unit; VInt raw; VInt 0; VInt decimals].

Definition usdc : pyval := example_reserve "USDC" 6 true false 1000000 250000 50000.
Definition weth : pyval := example_reserve "WETH" 18 true false (3 * 10 ^ 18) 10 (2000 * 10 ^ 8).
Definition frozen_dai : pyval := example_reserve "DAI" 18 true true (5 * 10 ^ 18) 10 (10 ^ 8).
Definition truncated : pyval := VTuple [VStr "0xA0b8"; VStr "name"; VStr "BAD"; VInt 6].

(** [usdc] with an int of 4301 digits where the symbol should be. *)
Definition long_symbol : pyval :=
  VTuple [VStr "0xA0b8"; VStr "name"; VInt (10 ^ 4300); VInt 6;
          VInt 7700; VInt 8000; VInt 10450; VInt 1000; VBool true; VBool true;
          VBool true; VBool false;
          VInt 1; VInt 1; VInt 0; VInt 0; VInt 1700000000;
          VStr "0x98C2"; VStr "0x72E9"; VStr "0xD4b2";
          VInt 1000000; VInt 250000; VInt 50000].

Definition usdc_record : Spec.ReserveRecord :=
  example_record "USDC" 6 true false 1000000 250000 50000.
Definition weth_record : Spec.ReserveRecord :=
  example_record "WETH" 18 true false (3 * 10 ^ 18) 10 (2000 * 10 ^ 8).

(** A market whose reference currency is the dollar with 8 decimals. *)
Definition example_info : Spec.BaseCurrencyInfo :=
  {| Spec.marketReferenceCurrencyUnit := 100000000;
     Spec.marketReferenceCurrencyPriceInUsd := 100000000;
     Spec.priceDecimals := 8 |}.

(** Another [totalScaledVariableDebt] for each reserve, by position. *)
Definition other_debts (k : nat) : pyval := VInt (Z.of_nat k * 1000 + 1).

(** ** [main], line by line

    What [main] prints, in order.  [block_number] is how line 144 ends,
    which reads [w3.eth.block_number] from the node and prints it: with
    the number printed, or with the exception raised on the way.  An
    exception raised anywhere in the [try] block ends the output with the
    line of the handler that catches it. *)
Inductive main_line : Type :=
| OutLatestBlock (n : Z)
| OutCalling
| OutReducer (l : log_line)
| OutComplete (tvl_result : float)
| OutError (e : pyexn)
| OutUnknownCriticalError (e : pyexn).

(** Lines 164-167: the handler that catches [e] and the line it prints. *)
Definition handler_line (e : pyexn) : main_line :=
  if is_expected_error (exn_cls e) then OutError e else OutUnknownCriticalError e.

Definition main_output `{Platform} (is_connected : bool) (block_number : py_result Z)
    (abi : abi_file) (call : py_result pyval) : list main_line :=
  match connect_to_web3 is_connected with
  | Raise e => [handler_line e]
  | Ok _ =>
      match block_number with
      | Raise e => [handler_line e]
      | Ok n =>
          OutLatestBlock n ::
          match load_abi abi with
          | Raise e => [handler_line e]
          | Ok _ =>
              OutCalling ::
              match get_aave_reserves_data call with
              | Raise e => [handler_line e]
              | Ok (reserves_data, base_currency_info) =>
                  let '(result, lines) :=
                    calculate_total_tvl reserves_data base_currency_info in
                  map OutReducer lines ++
                  match result with
                  | Ok tvl_result => [OutComplete tvl_result]
                  | Raise e => [handler_line e]
                  end
              end
          end
      end
  end.

(** The lines that end a run, and the lines about single reserves. *)
Definition is_final_line (l : main_line) : bool :=
  match l with
  | OutComplete _ | OutError _ | OutUnknownCriticalError _ => true
  | _ => false
  end.

Definition is_failure_line (l : main_line) : bool :=
  match l with
  | OutError _ | OutUnknownCriticalError _ => true
  | _ => false
  end.

Definition is_reserve_line (l : main_line) : bool :=
  match l with
  | OutReducer (LogZeroUnit _) | OutReducer (LogReserve _ _ _ _)
  | OutReducer (LogIndexError _) | OutReducer (LogUnknownError _ _) => true
  | _ => false
  end.

(** A float that is not below zero: its sign bit is clear, or it is NaN. *)
Definition not_negative (x : float) : bool :=
  match x with
  | S754_nan => true
  | S754_zero s | S754_infinity s | S754_finite s _ _ => negb s
  end.

Record nonneg_reserve (r : Spec.ReserveRecord) : Prop := {
  nonneg_decimals : 0 <= Spec.assetDecimals r;
  nonneg_liquidity : 0 <= Spec.availableLiquidity r;
  nonneg_price : 0 <= Spec.priceInMarketReferenceCurrency r
}.

(** Two reserves that agree on the fields the value is computed from. *)
Definition same_value_fields (v v' : pyval) : Prop :=
  exists fs fs',
    read_fields v = Ok fs /\ read_fields v' = Ok fs'
    /\ asset_decimals fs = asset_decimals fs'
    /\ is_active fs = is_active fs'
    /\ is_frozen fs = is_frozen fs'
    /\ available_liquidity_raw fs = available_liquidity_raw fs'
    /\ price_in_market_ref_currency fs = price_in_market_ref_currency fs'.

(** ** More inputs for the examples *)


(** An active reserve with nothing in it. *)
Definition empty_pool : pyval := example_reserve "GHO" 18 true false 0 0 (10 ^ 8).
Definition empty_pool_record : Spec.ReserveRecord :=
  example_record "GHO" 18 true false 0 0 (10 ^ 8).

(** [usdc] as a later data provider lays it out: another symbol and name,
    other settings, and three more positions at the end. *)
Definition usdc_extended : pyval :=
  VTuple [VStr "0xA0b8"; VStr "USD Coin"; VStr "USDC.e"; VInt 6;
          VInt 7500; VInt 7800; VInt 10500; VInt 2000; VBool false; VBool true;
          VBool true; VBool false;
          VInt 2; VInt 3; VInt 4; VInt 5; VInt 1800000000;
          VStr "0x1111"; VStr "0x2222"; VStr "0x3333";
          VInt 1000000; VInt 999; VInt 50000;
          VInt 0; VBool false; VStr "more"].

(** * Facts about binary64 rounding

    What the rounding functions of [SpecFloat] do to the digits and the
    exponent, as far as the reducer needs it: integers below [2^1023] in
    magnitude convert to finite floats, and their quotients do not
    overflow. *)

Lemma digits2_pos_size p : digits2_pos p = Pos.size p.
Proof. induction p as [p IH|p IH|]; simpl; congruence. Qed.

Lemma Zdigits2_log2 m : 0 < m -> Zdigits2 m = Z.log2 m + 1.
Proof.
  destruct m as [|p|p]; try lia. intros _. simpl.
  rewrite digits2_pos_size. destruct p; simpl; lia.
Qed.

Lemma Zdigits2_nonneg m : 0 <= Zdigits2 m.
Proof. destruct m; simpl; lia. Qed.

Lemma shr_1_m r : 0 <= shr_m r -> shr_m (shr_1 r) = Z.div2 (shr_m r).
Proof.
  destruct r as [m a b]. simpl. destruct m as [|p|p]; try lia; intros _.
  - reflexivity.
  - destruct p; reflexivity.
Qed.

Lemma iter_shr_1_m n : forall r, 0 <= shr_m r ->
  shr_m (SpecFloat.iter_pos shr_1 n r) = Z.shiftr (shr_m r) (Z.pos n).
Proof.
  induction n as [n IH|n IH|]; intros r Hr; simpl SpecFloat.iter_pos.
  - assert (H1 : 0 <= shr_m (shr_1 r)).
    { rewrite shr_1_m by done. rewrite Z.div2_spec. now apply Z.shiftr_nonneg. }
    assert (H2 : 0 <= shr_m (SpecFloat.iter_pos shr_1 n (shr_1 r))).
    { rewrite IH by done. now apply Z.shiftr_nonneg. }
    rewrite IH, IH, shr_1_m by done.
    rewrite Z.div2_spec, !Z.shiftr_shiftr by lia. f_equal. lia.
  - assert (H2 : 0 <= shr_m (SpecFloat.iter_pos shr_1 n r)).
    { rewrite IH by done. now apply Z.shiftr_nonneg. }
    rewrite IH, IH by done. rewrite Z.shiftr_shiftr by lia. f_equal. lia.
  - rewrite shr_1_m by done. apply Z.div2_spec.
Qed.

Lemma shr_record_of_loc_m m l : shr_m (shr_record_of_loc m l) = m.
Proof. destruct l as [|[]]; reflexivity. Qed.

Lemma shr_fexp_spec m e l : 0 <= m ->
  snd (shr_fexp F.prec F.emax m e l) = Z.max e (fexp F.prec F.emax (Zdigits2 m + e)) /\
  shr_m (fst (shr_fexp F.prec F.emax m e l)) =
    Z.shiftr m (snd (shr_fexp F.prec F.emax m e l) - e).
Proof.
  intros Hm. unfold shr_fexp, shr.
  destruct (fexp F.prec F.emax (Zdigits2 m + e) - e) as [|n|n] eqn:E; simpl.
  - rewrite shr_record_of_loc_m, Z.sub_diag, Z.shiftr_0_r. split; [lia|done].
  - rewrite iter_shr_1_m by now rewrite shr_record_of_loc_m.
    rewrite shr_record_of_loc_m. replace (e + Z.pos n - e) with (Z.pos n) by lia.
    split; [lia|done].
  - rewrite shr_record_of_loc_m, Z.sub_diag, Z.shiftr_0_r. split; [lia|done].
Qed.

Lemma round_nearest_even_bounds m l :
  m <= round_nearest_even m l <= m + 1.
Proof. destruct l as [|[]]; simpl; try lia. destruct (Z.even m); lia. Qed.

Lemma Zdigits2_gt m : 0 <= m -> m < 2 ^ Zdigits2 m.
Proof.
  intros Hm. destruct (Z.eq_dec m 0) as [->|Hn]; [reflexivity|].
  rewrite Zdigits2_log2 by lia. apply Z.log2_spec. lia.
Qed.

Lemma Zdigits2_le_iff m k : 0 <= m -> 0 <= k -> Zdigits2 m <= k <-> m < 2 ^ k.
Proof.
  intros Hm Hk. destruct (Z.eq_dec m 0) as [->|Hn].
  - simpl. split; intros _; [apply Z.pow_pos_nonneg|]; lia.
  - rewrite Zdigits2_log2 by lia.
    rewrite (Z.log2_lt_pow2 m k) by lia. lia.
Qed.

Lemma Zdigits2_mono a b : 0 <= a <= b -> Zdigits2 a <= Zdigits2 b.
Proof.
  intros Hab. apply Zdigits2_le_iff; [lia|apply Zdigits2_nonneg|].
  pose proof (Zdigits2_gt b). lia.
Qed.

Lemma Zdigits2_succ a b : 0 <= a -> a <= b <= a + 1 -> Zdigits2 b <= Zdigits2 a + 1.
Proof.
  intros Ha Hb. pose proof (Zdigits2_nonneg a).
  apply Zdigits2_le_iff; [lia..|].
  pose proof (Zdigits2_gt a Ha). rewrite Z.pow_add_r by lia. lia.
Qed.

Lemma Zdigits2_shiftr m n : 0 <= m -> 0 <= n ->
  Zdigits2 (Z.shiftr m n) <= Z.max 0 (Zdigits2 m - n).
Proof.
  intros Hm Hn.
  assert (H0 : 0 <= Z.shiftr m n) by now apply Z.shiftr_nonneg.
  destruct (Z.eq_dec (Z.shiftr m n) 0) as [->|Hz]; [simpl; lia|].
  destruct (Z.eq_dec m 0) as [->|Hmz]; [now rewrite Z.shiftr_0_l in Hz|].
  rewrite !Zdigits2_log2 by lia. rewrite Z.log2_shiftr by lia.
  assert (~ Z.log2 m < n).
  { intros Hlt. apply Hz. apply Z.shiftr_eq_0; lia. }
  lia.
Qed.

Lemma fexp_eq x : fexp F.prec F.emax x = Z.max (x - 53) (-1074).
Proof. reflexivity. Qed.

Lemma binary_round_aux_not_infinity s mx ex lx :
  0 <= mx -> Zdigits2 mx + ex <= 1023 -> ex <= 971 ->
  F.is_infinity (binary_round_aux F.prec F.emax s mx ex lx) = false.
Proof.
  intros Hm Hd He. unfold binary_round_aux.
  destruct (shr_fexp_spec mx ex lx Hm) as [E1 M1].
  destruct (shr_fexp F.prec F.emax mx ex lx) as [mrs1 e1]. simpl in E1, M1.
  set (m2 := round_nearest_even (shr_m mrs1) (loc_of_shr_record mrs1)).
  assert (H1 : 0 <= shr_m mrs1) by (rewrite M1; now apply Z.shiftr_nonneg).
  pose proof (round_nearest_even_bounds (shr_m mrs1) (loc_of_shr_record mrs1)) as Hr.
  fold m2 in Hr.
  assert (Hm2 : 0 <= m2) by lia.
  destruct (shr_fexp_spec m2 e1 loc_Exact Hm2) as [E2 M2].
  destruct (shr_fexp F.prec F.emax m2 e1 loc_Exact) as [mrs2 e2]. simpl in E2, M2.
  rewrite fexp_eq in E1, E2.
  assert (Hd1 : Zdigits2 (shr_m mrs1) + e1 <= 1023).
  { rewrite M1. assert (Hn : 0 <= e1 - ex) by lia.
    pose proof (Zdigits2_shiftr mx (e1 - ex) Hm Hn). lia. }
  pose proof (Zdigits2_succ (shr_m mrs1) m2 H1 Hr) as Hd2.
  destruct (shr_m mrs2); [reflexivity| |reflexivity].
  replace (e2 <=? F.emax - F.prec) with true; [reflexivity|].
  symmetry. apply Z.leb_le. change (F.emax - F.prec) with 971. lia.
Qed.

Lemma shiftr_pos m n : 0 < m -> 0 <= n -> n <= Z.log2 m -> 0 < Z.shiftr m n.
Proof.
  intros Hm Hn Hl.
  assert (HN : 0 <= Z.shiftr m n) by (apply Z.shiftr_nonneg; lia).
  destruct (Z.eq_dec (Z.shiftr m n) 0) as [Hz|]; [|lia].
  apply Z.shiftr_eq_0_iff in Hz. lia.
Qed.

Lemma shiftl_pos m n : 0 < m -> 0 <= n -> 0 < Z.shiftl m n.
Proof.
  intros Hm Hn. rewrite Z.shiftl_mul_pow2 by done.
  apply Z.mul_pos_pos; [done|]. apply Z.pow_pos_nonneg; lia.
Qed.

Lemma binary_round_aux_finite s mx ex lx :
  0 < mx -> 53 <= Zdigits2 mx -> Zdigits2 mx + ex <= 1023 ->
  -1074 <= Zdigits2 mx + ex - 53 ->
  exists m e, binary_round_aux F.prec F.emax s mx ex lx = S754_finite s m e.
Proof.
  intros Hm Hp Hd Hs. unfold binary_round_aux.
  destruct (shr_fexp_spec mx ex lx ltac:(lia)) as [E1 M1].
  destruct (shr_fexp F.prec F.emax mx ex lx) as [mrs1 e1]. simpl in E1, M1.
  set (m2 := round_nearest_even (shr_m mrs1) (loc_of_shr_record mrs1)).
  pose proof (round_nearest_even_bounds (shr_m mrs1) (loc_of_shr_record mrs1)) as Hr.
  fold m2 in Hr. rewrite fexp_eq in E1.
  rewrite Zdigits2_log2 in * by lia.
  assert (H1 : 0 < shr_m mrs1) by (rewrite M1; apply shiftr_pos; lia).
  assert (L1 : Z.log2 (shr_m mrs1) = 52).
  { rewrite M1, Z.log2_shiftr by lia. lia. }
  assert (L2 : 52 <= Z.log2 m2 <= 53).
  { split.
    - rewrite <- L1. apply Z.log2_le_mono. lia.
    - transitivity (Z.log2 (Z.succ (shr_m mrs1))).
      + apply Z.log2_le_mono. lia.
      + pose proof (Z.log2_succ_le (shr_m mrs1)). lia. }
  destruct (shr_fexp_spec m2 e1 loc_Exact ltac:(lia)) as [E2 M2].
  destruct (shr_fexp F.prec F.emax m2 e1 loc_Exact) as [mrs2 e2]. simpl in E2, M2.
  rewrite fexp_eq, Zdigits2_log2 in E2 by lia.
  assert (H2 : 0 < shr_m mrs2) by (rewrite M2; apply shiftr_pos; lia).
  destruct (shr_m mrs2) as [|m3|m3]; try lia.
  replace (e2 <=? F.emax - F.prec) with true; [by eauto|].
  symmetry. apply Z.leb_le. change (F.emax - F.prec) with 971. lia.
Qed.

Lemma Zpos_iter_xO p d : Z.pos (Pos.iter xO p d) = Z.shiftl (Z.pos p) (Z.pos d).
Proof. unfold Z.shiftl. apply Pos.iter_swap_gen. reflexivity. Qed.

(** Integers below [2^1023] in magnitude convert to a finite float. *)
Lemma of_Z_finite n : n <> 0 -> Z.abs n < 2 ^ 1023 ->
  exists m e, F.of_Z n = S754_finite (n <? 0) m e.
Proof.
  intros Hn Hb.
  assert (Hgen : forall s p, Z.pos p < 2 ^ 1023 ->
            exists m e, binary_round F.prec F.emax s p 0 = S754_finite s m e).
  { intros s p Hp. unfold binary_round, shl_align.
    assert (HD : Zdigits2 (Z.pos p) <= 1023) by (apply Zdigits2_le_iff; lia).
    change (Z.pos (digits2_pos p)) with (Zdigits2 (Z.pos p)).
    rewrite fexp_eq, Z.add_0_r, Z.sub_0_r.
    pose proof (Zdigits2_log2 (Z.pos p) ltac:(lia)) as HL.
    pose proof (Z.log2_nonneg (Z.pos p)) as HL0.
    destruct (Z.max (Zdigits2 (Z.pos p) - 53) (-1074)) as [|d|d] eqn:E.
    - apply binary_round_aux_finite; lia.
    - apply binary_round_aux_finite; lia.
    - rewrite Zpos_iter_xO.
      assert (HS : Zdigits2 (Z.shiftl (Z.pos p) (Z.pos d)) = 53).
      { rewrite Zdigits2_log2 by (apply shiftl_pos; lia).
        rewrite Z.log2_shiftl by lia. lia. }
      apply binary_round_aux_finite; rewrite ?HS; try lia.
      apply shiftl_pos; lia. }
  destruct n as [|p|p]; [done|apply Hgen; lia|apply Hgen; lia].
Qed.

Lemma div_Z_not_infinity a b : b <> 0 -> Z.abs a < 2 ^ 1023 ->
  F.is_infinity (F.div_Z a b) = false.
Proof.
  intros Hb Ha. unfold F.div_Z.
  destruct (a =? 0) eqn:Ea; [reflexivity|]. apply Z.eqb_neq in Ea.
  unfold SFdiv_core_binary. change (0 - 0) with 0.
  rewrite !Z.add_0_r, !Z.sub_0_l, fexp_eq.
  set (d1 := Zdigits2 (Z.abs a)). set (d2 := Zdigits2 (Z.abs b)).
  set (e := Z.min (Z.max (d1 - d2 - 53) (-1074)) 0).
  assert (Hd1 : d1 <= 1023) by (apply Zdigits2_le_iff; lia).
  set (m' := match - e with Z.pos _ => Z.shiftl (Z.abs a) (- e) | 0 => Z.abs a | Z.neg _ => 0 end).
  assert (Hm' : m' = Z.shiftl (Z.abs a) (- e)).
  { unfold m'. destruct (- e) eqn:E; [now rewrite Z.shiftl_0_r|done|lia]. }
  assert (Hm0 : 0 < m') by (rewrite Hm'; apply shiftl_pos; lia).
  assert (HDm : Zdigits2 m' = d1 - e).
  { rewrite Hm', Zdigits2_log2 by lia. rewrite Z.log2_shiftl by lia.
    unfold d1. rewrite Zdigits2_log2 by lia. lia. }
  pose proof (Z.div_eucl_eq m' (Z.abs b) ltac:(lia)) as Hq.
  pose proof (Z.mod_pos_bound m' (Z.abs b) ltac:(lia)) as Hr.
  unfold Z.modulo in Hr. fold m'.
  destruct (Z.div_eucl m' (Z.abs b)) as [q r].
  assert (Hq0 : 0 <= q <= m') by nia.
  apply binary_round_aux_not_infinity; [lia| |lia].
  pose proof (Zdigits2_mono q m' ltac:(lia)). lia.
Qed.


(** * Facts about the Python operations and the loop *)

(** Every 256-bit word fits. *)
Lemma fits_float_small n : Z.abs n < 2 ^ 256 -> fits_float n.
Proof. unfold fits_float. intros Hn. eapply Z.lt_trans; [exact Hn|reflexivity]. Qed.

(** The named constants are the floats they stand for. *)
Lemma float_constants :
  F.half = F.div_Z 1 2 /\ F.one = F.of_Z 1 /\ F.two = F.of_Z 2 /\ F.add F.half F.half = F.one.
Proof. repeat split. Qed.

Lemma pow10_nonzero n : 0 <= n -> 10 ^ n <> 0.
Proof. intros Hn. pose proof (Z.pow_pos_nonneg 10 n). lia. Qed.

Lemma float_of_int_fits n : fits_float n -> float_of_int n = Ok (F.of_Z n).
Proof.
  intros Hn. unfold float_of_int.
  destruct (Z.eq_dec n 0) as [->|Hz]; [reflexivity|].
  destruct (of_Z_finite n Hz Hn) as (m & e & ->). reflexivity.
Qed.

Lemma of_Z_nonzero n : n <> 0 -> fits_float n -> F.eq_zero (F.of_Z n) = false.
Proof.
  intros Hz Hn. destruct (of_Z_finite n Hz Hn) as (m & e & ->).
  now destruct (n <? 0).
Qed.

Lemma int_truediv_fits a b :
  b <> 0 -> fits_float a -> int_truediv a b = Ok (F.div_Z a b).
Proof.
  intros Hb Ha. unfold int_truediv.
  rewrite (proj2 (Z.eqb_neq b 0) Hb).
  now rewrite div_Z_not_infinity.
Qed.

Section Reducer.
Context `{Platform}.

(** Reading a field of a tuple. *)
Lemma py_getitem_tuple items k :
  py_getitem (VTuple items) k =
    match items !! k with Some x => Ok x | None => Raise (raised IndexError) end.
Proof. reflexivity. Qed.

(** A tuple with fewer than 23 positions cannot be read. *)
Lemma read_fields_truncated items :
  (length items < 23)%nat -> read_fields (VTuple items) = Raise (raised IndexError).
Proof.
  intros Hlen. unfold read_fields. rewrite !py_getitem_tuple.
  assert (H22 : items !! 22%nat = None) by (apply lookup_ge_None; lia).
  rewrite H22.
  repeat (match goal with
          | |- context [items !! ?k] => destruct (items !! k); simpl; [|reflexivity]
          end).
  reflexivity.
Qed.

(** Whatever a reserve is, its debt field does not reach the outcome. *)
Lemma reserve_body_set_debt unit price debt reserve :
  reserve_body unit price (set_debt debt reserve) = reserve_body unit price reserve.
Proof.
  destruct reserve as [| | | | |items]; try reflexivity.
  unfold reserve_body, read_fields, set_debt. rewrite !py_getitem_tuple.
  rewrite (list_lookup_insert_ne items 21 2), (list_lookup_insert_ne items 21 3),
    (list_lookup_insert_ne items 21 10), (list_lookup_insert_ne items 21 11),
    (list_lookup_insert_ne items 21 20), (list_lookup_insert_ne items 21 22) by lia.
  destruct (items !! 2%nat); [simpl|reflexivity].
  destruct (items !! 3%nat); [simpl|reflexivity].
  destruct (items !! 10%nat); [simpl|reflexivity].
  destruct (items !! 11%nat); [simpl|reflexivity].
  destruct (items !! 20%nat); [simpl|reflexivity].
  destruct (items !! 21%nat) as [d|] eqn:E21.
  - rewrite list_lookup_insert_eq by (apply lookup_lt_is_Some; eauto). simpl.
    destruct (items !! 22%nat); reflexivity.
  - assert (E : <[21%nat:=debt]> items !! 21%nat = None).
    { apply lookup_ge_None. rewrite length_insert. now apply lookup_ge_None. }
    rewrite E. reflexivity.
Qed.

Lemma loop_step_set_debt unit price st i debt reserve :
  loop_step unit price st i (set_debt debt reserve) = loop_step unit price st i reserve.
Proof. unfold loop_step, try_block. now rewrite reserve_body_set_debt. Qed.

Lemma loop_set_debt unit price reserves :
  forall (vary : nat -> pyval) st i,
    loop unit price st i (imap (fun k => set_debt (vary k)) reserves)
    = loop unit price st i reserves.
Proof.
  induction reserves as [|r rest IH]; intros vary st i; [reflexivity|].
  rewrite imap_cons. simpl. rewrite loop_step_set_debt. apply IH.
Qed.

(** The accumulator after an iteration. *)
Lemma loop_step_total unit price st i reserve :
  total_tvl_in_usd (loop_step unit price st i reserve)
  = add_contribution unit price (total_tvl_in_usd st) reserve.
Proof.
  unfold loop_step, try_block, add_contribution, contribution, handle.
  destruct (reserve_body unit price reserve) as [[|sym|sym n v]|e]; try reflexivity.
  - destruct (format_value sym) as [|e]; [reflexivity|]. destruct (exn_cls e); reflexivity.
  - destruct (format_value sym) as [|e]; [reflexivity|]. destruct (exn_cls e); reflexivity.
  - destruct (exn_cls e); reflexivity.
Qed.

Lemma loop_total unit price reserves :
  forall st i,
    total_tvl_in_usd (loop unit price st i reserves)
    = fold_left (add_contribution unit price) reserves (total_tvl_in_usd st).
Proof.
  induction reserves as [|r rest IH]; intros st i; [reflexivity|].
  simpl. now rewrite IH, loop_step_total.
Qed.

(** The value returned, or the exception that leaves the function. *)
Lemma calculate_total_tvl_fst reserves base :
  fst (calculate_total_tvl (VTuple reserves) base)
  = match decode_base base with
    | Raise e => Raise e
    | Ok (unit, price) =>
        match format_value unit with
        | Raise e => Raise e
        | Ok _ => Ok (sum_contributions unit price reserves)
        end
    end.
Proof.
  unfold calculate_total_tvl.
  destruct (decode_base base) as [[unit price]|e]; [|reflexivity].
  destruct (format_value unit); [|reflexivity].
  simpl. now rewrite loop_total.
Qed.

Lemma calculate_total_tvl_sum reserves base unit price :
  decode_base base = Ok (unit, price) ->
  format_value unit = Ok tt ->
  fst (calculate_total_tvl (VTuple reserves) base)
  = Ok (sum_contributions unit price reserves).
Proof. intros Hb Hf. now rewrite calculate_total_tvl_fst, Hb, Hf. Qed.

(** Every int in the range of [fits_float] has a text, and so has every
    unit that equals zero. *)
Lemma fits_float_formats n : fits_float n -> format_value (VInt n) = Ok tt.
Proof.
  intros Hn. apply format_int. unfold fits_float in Hn.
  eapply Z.lt_trans; [exact Hn|]. now vm_compute.
Qed.

Lemma zero_unit_formats unit : py_eq_zero unit = true -> format_value unit = Ok tt.
Proof.
  destruct unit as [|b|n|f|s|items]; try discriminate; intros Hz.
  - apply format_bool.
  - apply format_int. apply Z.eqb_eq in Hz. now subst n.
  - apply format_float.
Qed.

(** A reserve that adds nothing can be left out of the sum. *)
Lemma fold_skip unit price front reserve back :
  contribution unit price reserve = None ->
  forall t,
    fold_left (add_contribution unit price) (front ++ reserve :: back) t
    = fold_left (add_contribution unit price) (front ++ back) t.
Proof.
  intros Hc t. rewrite !fold_left_app. simpl.
  unfold add_contribution at 2. now rewrite Hc.
Qed.

Lemma sum_contributions_skip unit price front reserve back :
  contribution unit price reserve = None ->
  sum_contributions unit price (front ++ reserve :: back)
  = sum_contributions unit price (front ++ back).
Proof. intros Hc. now apply fold_skip. Qed.

(** The lines of one iteration. *)
Lemma printed_loop_step unit price st i reserve :
  printed (loop_step unit price st i reserve)
  = printed st ++
    match try_block unit price reserve with
    | EndSkipped => []
    | EndZeroUnit sym => [LogZeroUnit sym]
    | EndCounted sym n v => [LogReserve (i + 1) sym n v]
    | EndRaised _ e =>
        match exn_cls e with
        | IndexError => [LogIndexError (i + 1)]
        | _ => [LogUnknownError (i + 1) e]
        end
    end.
Proof.
  unfold loop_step, handle, add_value, say.
  destruct (try_block unit price reserve) as [|sym|sym n v|[x|] e]; cbn [printed];
    rewrite ?app_nil_r; try reflexivity; destruct (exn_cls e); reflexivity.
Qed.


Lemma loop_lines_failed unit price reserves k e :
  forall st i,
    LogUnknownError k e ∈ printed (loop unit price st i reserves)
    <-> LogUnknownError k e ∈ printed st
        \/ exists j reserve added,
             reserves !! j = Some reserve /\ k = (i + j + 1)%nat
             /\ try_block unit price reserve = EndRaised added e
             /\ exn_cls e <> IndexError.
Proof.
  induction reserves as [|r rest IH]; intros st i; cbn [loop].
  - split; [tauto|]. intros [?|(j & x & a & Hj & _)]; [done|]. now rewrite lookup_nil in Hj.
  - rewrite IH, printed_loop_step, elem_of_app. split.
    + intros [[Hin|Hin]|(j & x & a & Hj & -> & Hb)].
      * now left.
      * right. exists 0%nat, r.
        destruct (try_block unit price r) as [|s0|s0 n0 v0|added e'].
        -- now apply elem_of_nil in Hin.
        -- apply list_elem_of_singleton in Hin. discriminate.
        -- apply list_elem_of_singleton in Hin. discriminate.
        -- exists added.
           destruct (exn_cls e') eqn:Ec; apply list_elem_of_singleton in Hin;
             try discriminate; injection Hin as -> ->;
             (split; [done|]; split; [lia|]; split; [done|congruence]).
      * right. exists (S j), x, a. split; [done|]. split; [lia|done].
    + intros [Hin|(j & x & a & Hj & -> & Hb & Hc)]; [now left; left|].
      destruct j as [|j]; cbn in Hj.
      * injection Hj as ->. left; right. rewrite Hb.
        destruct (exn_cls e); try done; apply list_elem_of_singleton; f_equal; lia.
      * right. exists j, x, a. split; [done|]. split; [lia|tauto].
Qed.

Lemma loop_lines_index_error unit price reserves k :
  forall st i,
    LogIndexError k ∈ printed (loop unit price st i reserves)
    <-> LogIndexError k ∈ printed st
        \/ exists j reserve added e,
             reserves !! j = Some reserve /\ k = (i + j + 1)%nat
             /\ try_block unit price reserve = EndRaised added e
             /\ exn_cls e = IndexError.
Proof.
  induction reserves as [|r rest IH]; intros st i; cbn [loop].
  - split; [tauto|]. intros [?|(j & x & a & e & Hj & _)]; [done|].
    now rewrite lookup_nil in Hj.
  - rewrite IH, printed_loop_step, elem_of_app. split.
    + intros [[Hin|Hin]|(j & x & a & e & Hj & -> & Hb)].
      * now left.
      * right. exists 0%nat, r.
        destruct (try_block unit price r) as [|s0|s0 n0 v0|added e'].
        -- now apply elem_of_nil in Hin.
        -- apply list_elem_of_singleton in Hin. discriminate.
        -- apply list_elem_of_singleton in Hin. discriminate.
        -- exists added, e'.
           destruct (exn_cls e') eqn:Ec; apply list_elem_of_singleton in Hin;
             try discriminate; injection Hin as ->;
             (split; [done|]; split; [lia|]; split; done).
      * right. exists (S j), x, a, e. split; [done|]. split; [lia|done].
    + intros [Hin|(j & x & a & e & Hj & -> & Hb & Hc)]; [now left; left|].
      destruct j as [|j]; cbn in Hj.
      * injection Hj as ->. left; right. rewrite Hb, Hc.
        apply list_elem_of_singleton; f_equal; lia.
      * right. exists j, x, a, e. split; [done|]. split; [lia|tauto].
Qed.

(** The lines printed when the function returns. *)
Lemma calculate_total_tvl_lines reserves base unit price :
  decode_base base = Ok (unit, price) ->
  format_value unit = Ok tt ->
  snd (calculate_total_tvl (VTuple reserves) base)
  = printed (loop unit price (initial_state unit price (length reserves)) 0 reserves).
Proof. intros Hb Hf. unfold calculate_total_tvl. now rewrite Hb, Hf. Qed.

(** What ends before line 127 adds nothing. *)
Lemma try_block_raised_contribution unit price reserve e :
  try_block unit price reserve = EndRaised None e ->
  contribution unit price reserve = None.
Proof.
  unfold try_block, contribution.
  destruct (reserve_body unit price reserve) as [[|sym|sym n v]|e']; try reflexivity.
  destruct (format_value sym); discriminate.
Qed.

(** Step 1 on integers. *)
Lemma price_in_usd_ints raw decimals :
  fits_float raw ->
  market_ref_currency_price_in_usd (VInt raw) (VInt decimals)
  = Ok (if 0 <? decimals then F.div_Z raw (10 ^ decimals) else F.of_Z raw).
Proof.
  intros Hraw. unfold market_ref_currency_price_in_usd, py_gt_zero.
  cbn [to_number bind].
  destruct (0 <? decimals) eqn:Ed.
  - apply Z.ltb_lt in Ed. unfold py_pow10. cbn [to_number].
    replace (0 <=? decimals) with true by (symmetry; apply Z.leb_le; lia).
    cbn [bind]. unfold py_truediv. cbn [to_number].
    apply int_truediv_fits; [|done]. apply pow10_nonzero. lia.
  - unfold py_float. cbn [to_number number_to_float].
    now apply float_of_int_fits.
Qed.

Lemma decode_base_ints unit raw unused decimals rest :
  fits_float raw ->
  decode_base (VTuple (VInt unit :: VInt raw :: unused :: VInt decimals :: rest))
  = Ok (VInt unit,
        if 0 <? decimals then F.div_Z raw (10 ^ decimals) else F.of_Z raw).
Proof.
  intros Hraw. unfold decode_base. rewrite !py_getitem_tuple.
  cbn [lookup list_lookup bind]. now rewrite price_in_usd_ints.
Qed.


End Reducer.

(** * The reducer against the specification's formulas *)

Section Refinement.
Context `{Platform}.

Lemma process_fields_wf b r :
  wf_base_info b -> wf_reserve r ->
  process_fields (VInt (Spec.marketReferenceCurrencyUnit b)) (Spec.priceInUsd b) (fields_of r)
  = Ok (if Spec.eligible r
        then Counted (VStr (Spec.symbol r)) (Spec.suppliedNormalized r) (Spec.valueInUsd b r)
        else Ineligible).
Proof.
  intros [Hu0 Hu Hp] [Hd Hl Hpr].
  unfold process_fields, skipped_by_gate, Spec.eligible, fields_of.
  cbn [is_active is_frozen py_truthy].
  destruct (Spec.isActive r), (Spec.isFrozen r); cbn [negb orb andb]; try reflexivity.
  unfold normalized_total_supplied_asset, py_pow10.
  cbn [asset_decimals available_liquidity_raw to_number].
  replace (0 <=? Spec.assetDecimals r) with true by (symmetry; apply Z.leb_le; lia).
  cbn [bind]. unfold py_truediv. cbn [to_number].
  rewrite int_truediv_fits by (try apply pow10_nonzero; done).
  cbn [bind]. unfold py_eq_zero. cbn [to_number].
  rewrite (proj2 (Z.eqb_neq _ 0) Hu0).
  unfold value_in_market_ref_currency, float_mul_py, float_truediv_py.
  cbn [price_in_market_ref_currency symbol to_number number_to_float].
  rewrite !float_of_int_fits by done. cbn [bind].
  unfold float_truediv. rewrite of_Z_nonzero by done.
  reflexivity.
Qed.

Lemma contribution_wf b r v :
  wf_base_info b -> wf_reserve r -> encodes_reserve r v ->
  contribution (VInt (Spec.marketReferenceCurrencyUnit b)) (Spec.priceInUsd b) v
  = if Spec.eligible r then Some (Spec.valueInUsd b r) else None.
Proof.
  intros Hb Hr Hv. unfold contribution, reserve_body. rewrite Hv. cbn [bind].
  rewrite process_fields_wf by done. now destruct (Spec.eligible r).
Qed.

Lemma fold_contributions_wf b rs vs :
  wf_base_info b -> Forall wf_reserve rs -> Forall2 encodes_reserve rs vs ->
  forall t,
    fold_left (add_contribution (VInt (Spec.marketReferenceCurrencyUnit b)) (Spec.priceInUsd b)) vs t
    = fold_left (fun acc r => if Spec.eligible r then F.add acc (Spec.valueInUsd b r) else acc) rs t.
Proof.
  intros Hb Hrs Henc. induction Henc as [|r v rs vs Hv Henc IH]; intros t; [reflexivity|].
  apply Forall_cons in Hrs as [Hr Hrs]. simpl.
  unfold add_contribution at 2. rewrite (contribution_wf b r v) by done.
  rewrite IH by done. now destruct (Spec.eligible r).
Qed.

Lemma decode_base_wf b unused rest :
  wf_base_info b ->
  decode_base (base_tuple b unused rest)
  = Ok (VInt (Spec.marketReferenceCurrencyUnit b), Spec.priceInUsd b).
Proof. intros [_ _ Hp]. unfold base_tuple. now rewrite decode_base_ints. Qed.

Lemma calculate_total_tvl_wf b unused rest vs :
  wf_base_info b ->
  fst (calculate_total_tvl (VTuple vs) (base_tuple b unused rest))
  = Ok (sum_contributions (VInt (Spec.marketReferenceCurrencyUnit b)) (Spec.priceInUsd b) vs).
Proof.
  intros Hb. apply calculate_total_tvl_sum; [now apply decode_base_wf|].
  apply fits_float_formats, Hb.
Qed.

End Refinement.

(** * The claims *)

(** C1.  The total is computed from [availableLiquidity] only.  Varying
    the [totalScaledVariableDebt] field of any records, everything else
    fixed, changes neither the value returned nor the lines printed, on
    any input; and on a well-formed input each eligible record
    contributes exactly
    [(availableLiquidity / 10^assetDecimals) * priceInMarketReferenceCurrency
     / marketReferenceCurrencyUnit * priceInUsd],
    the total being the sum of these in input order. *)
Theorem calculate_total_tvl_liquidity_only `{Platform} :
  (forall reserves base (vary : nat -> pyval),
      calculate_total_tvl (VTuple (imap (fun k => set_debt (vary k)) reserves)) base
      = calculate_total_tvl (VTuple reserves) base)
  /\ (forall b r v,
         wf_base_info b -> wf_reserve r -> encodes_reserve r v ->
         Spec.eligible r = true ->
         contribution (VInt (Spec.marketReferenceCurrencyUnit b)) (Spec.priceInUsd b) v
         = Some (Spec.valueInUsd b r))
  /\ (forall b unused rest rs vs,
         wf_base_info b -> Forall wf_reserve rs -> Forall2 encodes_reserve rs vs ->
         fst (calculate_total_tvl (VTuple vs) (base_tuple b unused rest))
         = Ok (Spec.total b rs)).
Proof.
  split; [|split].
  - intros reserves base vary. unfold calculate_total_tvl.
    destruct (decode_base base) as [[unit price]|e]; [|reflexivity].
    destruct (format_value unit); [|reflexivity].
    cbn [py_items]. now rewrite length_imap, loop_set_debt.
  - intros b r v Hb Hr Hv He. rewrite (contribution_wf b r v) by done. now rewrite He.
  - intros b unused rest rs vs Hb Hrs Hvs.
    rewrite calculate_total_tvl_wf by done.
    unfold sum_contributions, Spec.total. f_equal. now apply fold_contributions_wf.
Qed.

Lemma calculate_total_tvl_liquidity_only_witness :
  calculate_total_tvl (H := example_platform)
    (VTuple (imap (fun k => set_debt (other_debts k)) [usdc; weth]))
    (example_base 100000000 100000000 8)
  = calculate_total_tvl (H := example_platform) (VTuple [usdc; weth])
      (example_base 100000000 100000000 8)
  /\ contribution (H := example_platform) (VInt 100000000) (Spec.priceInUsd example_info) weth
     = Some (Spec.valueInUsd example_info weth_record)
  /\ fst (calculate_total_tvl (H := example_platform) (VTuple [usdc; weth])
            (example_base 100000000 100000000 8))
     = Ok (Spec.total example_info [usdc_record; weth_record]).
Proof.
  pose proof (@calculate_total_tvl_liquidity_only example_platform) as (Hvary & Hone & Hall).
  assert (Hb : wf_base_info example_info).
  { split; [discriminate|apply fits_float_small; reflexivity..]. }
  assert (Hu : wf_reserve usdc_record).
  { split; [discriminate|apply fits_float_small; reflexivity..]. }
  assert (Hw : wf_reserve weth_record).
  { split; [discriminate|apply fits_float_small; reflexivity..]. }
  split; [|split].
  - apply Hvary.
  - apply (Hone example_info weth_record weth Hb Hw); reflexivity.
  - apply (Hall example_info (VInt 0) [] [usdc_record; weth_record] [usdc; weth] Hb).
    + constructor; [exact Hu|]. constructor; [exact Hw|]. constructor.
    + constructor; [reflexivity|]. constructor; [reflexivity|]. constructor.
Defined.

(** C2.  For one active, unfrozen record with [assetDecimals = 6],
    [availableLiquidity = 1000000] and
    [priceInMarketReferenceCurrency = 50000], under a base currency info
    with unit [100000], [priceDecimals = 0] and raw price [2] (the int or
    the float), the normalized quantity is [1.0], the value in reference
    currency is [0.5], the value in USD is [1.0], and the total over that
    one record is [1.0]. *)
Theorem single_record_arithmetic `{Platform} reserve sym debt raw unused rest :
  read_fields reserve
  = Ok (mk_fields sym (VInt 6) (VBool true) (VBool false) (VInt 1000000) debt (VInt 50000)) ->
  raw = VInt 2 \/ raw = VFloat F.two ->
  decode_base (VTuple (VInt 100000 :: raw :: unused :: VInt 0 :: rest))
  = Ok (VInt 100000, F.two)
  /\ normalized_total_supplied_asset
       (mk_fields sym (VInt 6) (VBool true) (VBool false) (VInt 1000000) debt (VInt 50000))
     = Ok F.one
  /\ value_in_market_ref_currency F.one (VInt 50000) (VInt 100000) = Ok F.half
  /\ F.mul F.half F.two = F.one
  /\ reserve_body (VInt 100000) F.two reserve = Ok (Counted sym F.one F.one)
  /\ fst (calculate_total_tvl (VTuple [reserve])
            (VTuple (VInt 100000 :: raw :: unused :: VInt 0 :: rest)))
     = Ok F.one.
Proof.
  intros Hfields Hraw.
  assert (Hbase : decode_base (VTuple (VInt 100000 :: raw :: unused :: VInt 0 :: rest))
                  = Ok (VInt 100000, F.two)).
  { destruct Hraw as [-> | ->]; reflexivity. }
  assert (Hbody : reserve_body (VInt 100000) F.two reserve = Ok (Counted sym F.one F.one)).
  { unfold reserve_body. rewrite Hfields. reflexivity. }
  repeat split; try reflexivity; try assumption.
  rewrite (calculate_total_tvl_sum _ _ _ _ Hbase) by (now apply format_int).
  unfold sum_contributions, add_contribution, contribution. cbn [fold_left].
  rewrite Hbody. reflexivity.
Qed.

Lemma single_record_arithmetic_witness :
  reserve_body (H := example_platform) (VInt 100000) F.two usdc
  = Ok (Counted (VStr "USDC") F.one F.one)
  /\ fst (calculate_total_tvl (H := example_platform) (VTuple [usdc]) (example_base 100000 2 0))
     = Ok F.one.
Proof.
  pose proof (@single_record_arithmetic example_platform usdc (VStr "USDC") (VInt 250000)
                (VInt 2) (VInt 0) [] eq_refl (or_introl eq_refl)) as (_ & _ & _ & _ & Hbody & Htotal).
  split; [exact Hbody|exact Htotal].
Defined.

(** C3.  The price normalization branches on [priceDecimals > 0] and on
    nothing else: with a positive exponent the raw price is divided by
    [10 ** priceDecimals], otherwise the price is [float(rawPrice)] with no
    division.  For [priceDecimals = 0] the price is [float(rawPrice)]
    exactly; for [priceDecimals = 8] and [rawPrice = 100000000] it is
    [1.0]. *)
Theorem price_normalization_branch `{Platform} raw :
  (forall decimals,
      market_ref_currency_price_in_usd raw (VInt decimals)
      = if 0 <? decimals then py_truediv raw (NInt (10 ^ decimals)) else py_float raw)
  /\ market_ref_currency_price_in_usd raw (VInt 0) = py_float raw
  /\ (forall n, market_ref_currency_price_in_usd (VInt n) (VInt 0) = float_of_int n)
  /\ market_ref_currency_price_in_usd (VInt 100000000) (VInt 8) = Ok F.one.
Proof.
  assert (Hgen : forall decimals,
             market_ref_currency_price_in_usd raw (VInt decimals)
             = if 0 <? decimals then py_truediv raw (NInt (10 ^ decimals)) else py_float raw).
  { intros decimals. unfold market_ref_currency_price_in_usd, py_gt_zero.
    cbn [to_number bind].
    destruct (0 <? decimals) eqn:Ed; [|reflexivity].
    apply Z.ltb_lt in Ed. unfold py_pow10. cbn [to_number].
    replace (0 <=? decimals) with true by (symmetry; apply Z.leb_le; lia).
    reflexivity. }
  split; [exact Hgen|]. split; [exact (Hgen 0)|].
  split; [intros n; reflexivity|reflexivity].
Qed.

(** The gate on the fields read. *)
Lemma reserve_body_gate `{Platform} unit price reserve fs :
  read_fields reserve = Ok fs ->
  py_truthy (is_active fs) = false \/ py_truthy (is_frozen fs) = true ->
  reserve_body unit price reserve = Ok Ineligible.
Proof.
  intros Hfs Hgate. unfold reserve_body. rewrite Hfs. cbn [bind].
  unfold process_fields, skipped_by_gate.
  destruct Hgate as [-> | ->]; [reflexivity|]. now rewrite orb_true_r.
Qed.

(** C4.  A reserve whose fields can be read and whose [isActive] is false
    or whose [isFrozen] is true, whatever its other fields hold: the body
    ends at the gate, the reserve adds nothing to the total, the iteration
    changes neither the total nor the lines printed (no failure is
    logged), and the value returned is the one returned without it. *)
Theorem eligibility_gate `{Platform} unit price reserve fs :
  read_fields reserve = Ok fs ->
  py_truthy (is_active fs) = false \/ py_truthy (is_frozen fs) = true ->
  reserve_body unit price reserve = Ok Ineligible
  /\ contribution unit price reserve = None
  /\ (forall st i, loop_step unit price st i reserve = st)
  /\ (forall base front back,
         decode_base base = Ok (unit, price) ->
         fst (calculate_total_tvl (VTuple (front ++ reserve :: back)) base)
         = fst (calculate_total_tvl (VTuple (front ++ back)) base)).
Proof.
  intros Hfs Hgate.
  pose proof (reserve_body_gate unit price reserve fs Hfs Hgate) as Hbody.
  assert (Hc : contribution unit price reserve = None).
  { unfold contribution. now rewrite Hbody. }
  split; [exact Hbody|]. split; [exact Hc|]. split.
  - intros st i. unfold loop_step, try_block. now rewrite Hbody.
  - intros base front back Hbase.
    rewrite !calculate_total_tvl_fst, Hbase.
    destruct (format_value unit); [|reflexivity].
    now rewrite sum_contributions_skip.
Qed.

Lemma eligibility_gate_witness :
  reserve_body (H := example_platform) (VInt 100000000) F.one frozen_dai = Ok Ineligible
  /\ fst (calculate_total_tvl (H := example_platform) (VTuple [usdc; frozen_dai; weth])
            (example_base 100000000 100000000 8))
     = fst (calculate_total_tvl (H := example_platform) (VTuple [usdc; weth])
              (example_base 100000000 100000000 8)).
Proof.
  pose proof (@eligibility_gate example_platform (VInt 100000000) F.one frozen_dai
                (mk_fields (VStr "DAI") (VInt 18) (VBool true) (VBool true)
                           (VInt (5 * 10 ^ 18)) (VInt 10) (VInt (10 ^ 8)))
                eq_refl (or_intror eq_refl)) as (Hbody & _ & _ & Hsame).
  split; [exact Hbody|].
  apply (Hsame (example_base 100000000 100000000 8) [usdc] [weth]). reflexivity.
Defined.

(** With a zero unit no reserve is counted. *)
Lemma contribution_zero_unit `{Platform} unit price reserve :
  py_eq_zero unit = true -> contribution unit price reserve = None.
Proof.
  intros Hz. unfold contribution, reserve_body.
  destruct (read_fields reserve) as [fs|e]; [cbn [bind]|reflexivity].
  unfold process_fields.
  destruct (skipped_by_gate fs); [reflexivity|].
  destruct (normalized_total_supplied_asset fs); [cbn [bind]|reflexivity].
  now rewrite Hz.
Qed.

Lemma fold_no_contribution `{Platform} unit price reserves :
  (forall reserve, contribution unit price reserve = None) ->
  forall t, fold_left (add_contribution unit price) reserves t = t.
Proof.
  intros Hnone. induction reserves as [|r rest IH]; intros t; [reflexivity|].
  simpl. unfold add_contribution at 2. rewrite Hnone. apply IH.
Qed.

(** C5 as stated fails: a zero unit does not keep step 1 from raising.
    With unit 0 and a raw price too large for a float, the reducer raises
    [OverflowError] on line 84, before it looks at any reserve. *)
Lemma zero_unit_guard_counterexample :
  fst (calculate_total_tvl (H := example_platform) (VTuple [usdc])
         (VTuple [VInt 0; VInt (10 ^ 400); VInt 0; VInt 0]))
  = Raise (raised OverflowError).
Proof. vm_compute. reflexivity. Qed.

(** C5, amended.  When [marketReferenceCurrencyUnit] is zero and step 1
    succeeds on the base currency info, the reducer does not raise and
    returns exactly [0.0] for every reserves list: no reserve is counted,
    and every active, unfrozen reserve whose quantity normalizes ends at
    the guard of line 117, before the division by the unit, where line
    118 logs it when its symbol has a text. *)
Theorem zero_unit_guard `{Platform} base unit price reserves :
  decode_base base = Ok (unit, price) ->
  py_eq_zero unit = true ->
  fst (calculate_total_tvl (VTuple reserves) base) = Ok F.zero
  /\ (forall reserve, contribution unit price reserve = None)
  /\ (forall reserve fs normalized,
         read_fields reserve = Ok fs ->
         skipped_by_gate fs = false ->
         normalized_total_supplied_asset fs = Ok normalized ->
         reserve_body unit price reserve = Ok (ZeroUnit (symbol fs))
         /\ (format_value (symbol fs) = Ok tt ->
             forall st i,
               loop_step unit price st i reserve = say (LogZeroUnit (symbol fs)) st)).
Proof.
  intros Hbase Hz.
  pose proof (fun r => contribution_zero_unit unit price r Hz) as Hnone.
  split; [|split].
  - rewrite (calculate_total_tvl_sum _ _ _ _ Hbase) by (now apply zero_unit_formats).
    f_equal. now apply fold_no_contribution.
  - exact Hnone.
  - intros reserve fs normalized Hfs Hgate Hnorm.
    assert (Hbody : reserve_body unit price reserve = Ok (ZeroUnit (symbol fs))).
    { unfold reserve_body. rewrite Hfs. cbn [bind]. unfold process_fields.
      rewrite Hgate, Hnorm. cbn [bind]. now rewrite Hz. }
    split; [exact Hbody|].
    intros Hsym st i. unfold loop_step, try_block. now rewrite Hbody, Hsym.
Qed.

Lemma zero_unit_guard_witness :
  fst (calculate_total_tvl (H := example_platform) (VTuple [usdc; frozen_dai; truncated; weth])
         (example_base 0 100000000 8))
  = Ok F.zero
  /\ reserve_body (H := example_platform) (VInt 0) F.one usdc = Ok (ZeroUnit (VStr "USDC"))
  /\ loop_step (H := example_platform) (VInt 0) F.one (initial_state (VInt 0) F.one 4) 0 usdc
     = say (LogZeroUnit (VStr "USDC")) (initial_state (VInt 0) F.one 4).
Proof.
  pose proof (@zero_unit_guard example_platform (example_base 0 100000000 8) (VInt 0) F.one
                [usdc; frozen_dai; truncated; weth] eq_refl eq_refl) as (Htotal & _ & Hguard).
  split; [exact Htotal|].
  destruct (Hguard usdc
              (mk_fields (VStr "USDC") (VInt 6) (VBool true) (VBool false)
                         (VInt 1000000) (VInt 250000) (VInt 50000))
              F.one eq_refl eq_refl eq_refl) as [Hbody Hline].
  split; [exact Hbody|]. now apply Hline.
Defined.

(** The sum over a list of records and of entries that fail early. *)
Lemma fold_contributions_carries `{Platform} b entries vs :
  wf_base_info b -> Forall2 (carries b) entries vs ->
  forall t,
    fold_left (add_contribution (VInt (Spec.marketReferenceCurrencyUnit b)) (Spec.priceInUsd b)) vs t
    = fold_left (fun acc r => if Spec.eligible r then F.add acc (Spec.valueInUsd b r) else acc)
        (records_of entries) t.
Proof.
  intros Hb Hall.
  induction Hall as [|[r|] v entries vs Hv Hall IH]; intros t; [reflexivity|..].
  - destruct Hv as [Hr Hv]. cbn [fold_left records_of omap list_omap id].
    unfold add_contribution at 2. rewrite (contribution_wf b r v) by done.
    rewrite IH. now destruct (Spec.eligible r).
  - destruct Hv as [e He]. cbn [fold_left records_of omap list_omap id].
    unfold add_contribution at 2.
    rewrite (try_block_raised_contribution _ _ _ _ He). apply IH.
Qed.

(** C6 as stated fails for a record that fails late, and without a
    condition on the base currency info.  The [print] of lines 129-130
    is inside the [try] block, after line 127: when the symbol of an
    otherwise valid record has no text, the handler logs the record as
    skipped, and its value is in the total all the same.  And step 1 is
    outside the [try] block. *)
Lemma error_isolation_counterexample :
  calculate_total_tvl (H := example_platform) (VTuple [long_symbol]) (example_base 100000 2 0)
  = (Ok F.one,
     [LogHeader F.two (VInt 100000); LogProcessing 1; LogUnknownError 1 (raised ValueError)])
  /\ fst (calculate_total_tvl (H := example_platform) (VTuple [truncated])
            (VTuple [VInt 100000000; VInt (10 ^ 400); VInt 0; VInt 0]))
     = Raise (raised OverflowError).
Proof. split; vm_compute; reflexivity. Qed.

(** C6, amended.  A reserve for which the [try] block raises before line
    127 does not make the reducer raise.  A tuple too short for the
    positions read raises [IndexError] there and a value that is not a
    sequence [TypeError]; the iteration then only prints the handler's
    line and leaves the total as it was.  Under a well-formed base
    currency info, for every reserves list made of well-formed records
    and of such reserves, the value returned is the specification's
    total over the records, in input order, and every such reserve is
    logged with its ordinal position. *)
Theorem error_isolation `{Platform} b unused rest :
  wf_base_info b ->
  (forall unit price items,
      (length items < 23)%nat ->
      try_block unit price (VTuple items) = EndRaised None (raised IndexError))
  /\ (forall unit price v,
         not_subscriptable v = true ->
         try_block unit price v = EndRaised None (raised TypeError))
  /\ (forall unit price v e st i,
         try_block unit price v = EndRaised None e ->
         contribution unit price v = None
         /\ loop_step unit price st i v = handle i e st
         /\ total_tvl_in_usd (handle i e st) = total_tvl_in_usd st)
  /\ (forall entries vs,
         Forall2 (carries b) entries vs ->
         fst (calculate_total_tvl (VTuple vs) (base_tuple b unused rest))
         = Ok (Spec.total b (records_of entries))
         /\ (forall j,
                entries !! j = Some None ->
                LogIndexError (j + 1)
                  ∈ snd (calculate_total_tvl (VTuple vs) (base_tuple b unused rest))
                \/ exists e,
                     LogUnknownError (j + 1) e
                       ∈ snd (calculate_total_tvl (VTuple vs) (base_tuple b unused rest)))).
Proof.
  intros Hb. split; [|split; [|split]].
  - intros unit price items Hlen. unfold try_block, reserve_body.
    now rewrite read_fields_truncated.
  - intros unit price v Hv. destruct v; try discriminate; reflexivity.
  - intros unit price v e st i He.
    split; [now apply (try_block_raised_contribution unit price v e)|]. split.
    + unfold loop_step. now rewrite He.
    + unfold handle. destruct (exn_cls e); reflexivity.
  - intros entries vs Hall. split.
    + rewrite calculate_total_tvl_wf by done.
      unfold sum_contributions, Spec.total. f_equal. now apply fold_contributions_carries.
    + intros j Hj.
      rewrite (calculate_total_tvl_lines vs _ _ _ (decode_base_wf b unused rest Hb))
        by (apply fits_float_formats, Hb).
      destruct (Forall2_lookup_l _ _ _ _ _ Hall Hj) as (v & Hv & [e He]).
      assert (Hc : exn_cls e = IndexError \/ exn_cls e <> IndexError)
        by (destruct (exn_cls e); (now left) || (now right)).
      destruct Hc as [Hc|Hc].
      * left. apply loop_lines_index_error. right. exists j, v, None, e. done.
      * right. exists e. apply loop_lines_failed. right. exists j, v, None. done.
Qed.

Lemma error_isolation_witness :
  try_block (H := example_platform) (VInt 100000000) F.one truncated
  = EndRaised None (raised IndexError)
  /\ fst (calculate_total_tvl (H := example_platform) (VTuple [usdc; truncated; VNone; weth])
            (example_base 100000000 100000000 8))
     = Ok (Spec.total example_info [usdc_record; weth_record])
  /\ (LogIndexError 2
        ∈ snd (calculate_total_tvl (H := example_platform)
                 (VTuple [usdc; truncated; VNone; weth]) (example_base 100000000 100000000 8))
      \/ exists e,
           LogUnknownError 2 e
             ∈ snd (calculate_total_tvl (H := example_platform)
                      (VTuple [usdc; truncated; VNone; weth])
                      (example_base 100000000 100000000 8))).
Proof.
  assert (Hb : wf_base_info example_info).
  { split; [discriminate|apply fits_float_small; reflexivity..]. }
  assert (Hu : wf_reserve usdc_record).
  { split; [discriminate|apply fits_float_small; reflexivity..]. }
  assert (Hw : wf_reserve weth_record).
  { split; [discriminate|apply fits_float_small; reflexivity..]. }
  pose proof (@error_isolation example_platform example_info (VInt 0) [] Hb)
    as (Hshort & Hnone & _ & Hlist).
  assert (Ht : try_block (H := example_platform) (VInt 100000000) F.one truncated
               = EndRaised None (raised IndexError)).
  { apply Hshort. cbn [length]. lia. }
  split; [exact Ht|].
  destruct (Hlist [Some usdc_record; None; None; Some weth_record]
                  [usdc; truncated; VNone; weth]) as [Htotal Hlog].
  { constructor; [split; [exact Hu|reflexivity]|].
    constructor; [exists (raised IndexError); exact Ht|].
    constructor; [exists (raised TypeError); now apply Hnone|].
    constructor; [split; [exact Hw|reflexivity]|]. constructor. }
  split; [exact Htotal|]. now apply (Hlog 1%nat).
Defined.

(** C7.  What the fetch does with the response of the contract call.  A
    list or tuple of exactly two elements is returned as the pair.  Any
    other response raises, so no pair is returned and [main] reports no
    total; but the [ValueError] of line 60 is raised inside the [try]
    block, where the handler of line 65 catches it, and what leaves the
    function is a plain [Exception] that [main] reports as an unknown
    critical error, not as one of the errors it expects. *)
Theorem get_aave_reserves_data_response `{Platform} result :
  get_aave_reserves_data (Ok result)
  = (if is_pair result
     then fetch_body (Ok result)
     else Raise (mk_exn Exception
                   (MsgPrefixed "Unknown error while fetching reserve data: "
                      (exn_text (unexpected_response_format result)))))
  /\ (forall reserves_data base_currency_info,
         get_aave_reserves_data (Ok (VTuple [reserves_data; base_currency_info]))
         = Ok (reserves_data, base_currency_info))
  /\ (forall a,
         get_aave_reserves_data (Ok (VTuple [a]))
         = Raise (mk_exn Exception
                    (MsgPrefixed "Unknown error while fetching reserve data: "
                       (MsgUnexpectedFormat true (Some 1%nat))))
         /\ main true AbiLoaded (Ok (VTuple [a]))
            = ReportUnknownCriticalError
                (mk_exn Exception
                   (MsgPrefixed "Unknown error while fetching reserve data: "
                      (MsgUnexpectedFormat true (Some 1%nat)))))
  /\ (forall a b c,
         get_aave_reserves_data (Ok (VTuple [a; b; c]))
         = Raise (mk_exn Exception
                    (MsgPrefixed "Unknown error while fetching reserve data: "
                       (MsgUnexpectedFormat true (Some 3%nat))))
         /\ main true AbiLoaded (Ok (VTuple [a; b; c]))
            = ReportUnknownCriticalError
                (mk_exn Exception
                   (MsgPrefixed "Unknown error while fetching reserve data: "
                      (MsgUnexpectedFormat true (Some 3%nat))))).
Proof.
  split; [|split; [|split]].
  - unfold get_aave_reserves_data, fetch_body. cbn [bind].
    destruct (is_pair result) eqn:E; cbn [negb]; [|reflexivity].
    destruct result as [| | | | |items]; try discriminate.
    destruct items as [|x [|y [|z rest]]]; try discriminate. reflexivity.
  - reflexivity.
  - intros a. split; reflexivity.
  - intros a b c. split; reflexivity.
Qed.






(** * More facts about binary64 rounding

    Exact results, signs, and what rounding can return. *)

(** Rounding a mantissa of at least 53 digits above the subnormal range
    gives a finite float of the same sign or overflows. *)
Lemma binary_round_aux_finite_or_infinity s mx ex lx :
  0 < mx -> 53 <= Zdigits2 mx -> -1074 <= Zdigits2 mx + ex - 53 ->
  (exists m e, binary_round_aux F.prec F.emax s mx ex lx = S754_finite s m e)
  \/ binary_round_aux F.prec F.emax s mx ex lx = S754_infinity s.
Proof.
  intros Hm Hp Hs. unfold binary_round_aux.
  destruct (shr_fexp_spec mx ex lx ltac:(lia)) as [E1 M1].
  destruct (shr_fexp F.prec F.emax mx ex lx) as [mrs1 e1]. simpl in E1, M1.
  set (m2 := round_nearest_even (shr_m mrs1) (loc_of_shr_record mrs1)).
  pose proof (round_nearest_even_bounds (shr_m mrs1) (loc_of_shr_record mrs1)) as Hr.
  fold m2 in Hr. rewrite fexp_eq in E1.
  rewrite Zdigits2_log2 in * by lia.
  assert (H1 : 0 < shr_m mrs1) by (rewrite M1; apply shiftr_pos; lia).
  assert (L1 : Z.log2 (shr_m mrs1) = 52).
  { rewrite M1, Z.log2_shiftr by lia. lia. }
  assert (L2 : 52 <= Z.log2 m2).
  { rewrite <- L1. apply Z.log2_le_mono. lia. }
  assert (L3 : Z.log2 m2 <= 53).
  { transitivity (Z.log2 (Z.succ (shr_m mrs1))).
    - apply Z.log2_le_mono. lia.
    - pose proof (Z.log2_succ_le (shr_m mrs1)). lia. }
  destruct (shr_fexp_spec m2 e1 loc_Exact ltac:(lia)) as [E2 M2].
  destruct (shr_fexp F.prec F.emax m2 e1 loc_Exact) as [mrs2 e2]. simpl in E2, M2.
  rewrite fexp_eq, Zdigits2_log2 in E2 by lia.
  assert (H2 : 0 < shr_m mrs2) by (rewrite M2; apply shiftr_pos; lia).
  destruct (shr_m mrs2) as [|m3|m3]; try lia.
  destruct (e2 <=? F.emax - F.prec); eauto.
Qed.

Lemma of_Z_finite_or_infinity n : n <> 0 ->
  (exists m e, F.of_Z n = S754_finite (n <? 0) m e) \/ F.of_Z n = S754_infinity (n <? 0).
Proof.
  intros Hn.
  assert (Hgen : forall s p,
            (exists m e, binary_round F.prec F.emax s p 0 = S754_finite s m e)
            \/ binary_round F.prec F.emax s p 0 = S754_infinity s).
  { intros s p. unfold binary_round, shl_align.
    change (Z.pos (digits2_pos p)) with (Zdigits2 (Z.pos p)).
    rewrite fexp_eq, Z.add_0_r, Z.sub_0_r.
    pose proof (Zdigits2_log2 (Z.pos p) ltac:(lia)) as HL.
    pose proof (Z.log2_nonneg (Z.pos p)) as HL0.
    destruct (Z.max (Zdigits2 (Z.pos p) - 53) (-1074)) as [|d|d] eqn:E.
    - apply binary_round_aux_finite_or_infinity; lia.
    - apply binary_round_aux_finite_or_infinity; lia.
    - rewrite Zpos_iter_xO.
      assert (HS : Zdigits2 (Z.shiftl (Z.pos p) (Z.pos d)) = 53).
      { rewrite Zdigits2_log2 by (apply shiftl_pos; lia).
        rewrite Z.log2_shiftl by lia. lia. }
      apply binary_round_aux_finite_or_infinity; rewrite ?HS; try lia.
      apply shiftl_pos; lia. }
  destruct n as [|p|p]; [done|apply Hgen|apply Hgen].
Qed.

(** A mantissa of exactly 53 digits with nothing to round off is kept. *)
Lemma binary_round_aux_exact s m e :
  0 < m -> Zdigits2 m = 53 -> -1074 <= e <= 971 ->
  binary_round_aux F.prec F.emax s m e loc_Exact = S754_finite s (Z.to_pos m) e.
Proof.
  intros Hm Hd He. unfold binary_round_aux, shr_fexp.
  rewrite Hd, fexp_eq. replace (Z.max (53 + e - 53) (-1074) - e) with 0 by lia.
  cbn [shr shr_record_of_loc shr_m loc_of_shr_record round_nearest_even].
  rewrite Hd, fexp_eq. replace (Z.max (53 + e - 53) (-1074) - e) with 0 by lia.
  cbn [shr shr_record_of_loc shr_m].
  destruct m as [|p|p]; try lia.
  replace (e <=? F.emax - F.prec) with true; [reflexivity|].
  symmetry. apply Z.leb_le. change (F.emax - F.prec) with 971. lia.
Qed.

(** One more digit, a zero, is shifted out exactly. *)
Lemma binary_round_aux_exact_shift s m e :
  0 < m -> Zdigits2 m = 53 -> -1074 <= e <= 971 ->
  binary_round_aux F.prec F.emax s (2 * m) (e - 1) loc_Exact = S754_finite s (Z.to_pos m) e.
Proof.
  intros Hm Hd He.
  assert (Hd2 : Zdigits2 (2 * m) = 54).
  { rewrite Zdigits2_log2 in * by lia. rewrite Z.log2_double by lia. lia. }
  unfold binary_round_aux, shr_fexp.
  rewrite Hd2, fexp_eq. replace (Z.max (54 + (e - 1) - 53) (-1074) - (e - 1)) with 1 by lia.
  destruct m as [|p|p]; try lia.
  change (2 * Z.pos p) with (Z.pos p~0).
  cbn [shr shr_record_of_loc SpecFloat.iter_pos shr_1 orb shr_m
       loc_of_shr_record round_nearest_even].
  rewrite Hd, fexp_eq.
  replace (Z.max (53 + (e - 1 + 1) - 53) (-1074) - (e - 1 + 1)) with 0 by lia.
  cbn [shr shr_record_of_loc shr_m].
  replace (e - 1 + 1) with e by lia.
  replace (e <=? F.emax - F.prec) with true; [reflexivity|].
  symmetry. apply Z.leb_le. change (F.emax - F.prec) with 971. lia.
Qed.

(** The float of an integer of at most 53 digits: its digits, aligned. *)
Lemma of_Z_exact k :
  0 < k < 2 ^ 53 ->
  F.of_Z k = S754_finite false (Z.to_pos (k * 2 ^ (53 - Zdigits2 k))) (Zdigits2 k - 53).
Proof.
  intros Hk.
  assert (Hd : 1 <= Zdigits2 k <= 53).
  { split; [rewrite Zdigits2_log2 by lia; pose proof (Z.log2_nonneg k); lia|].
    apply Zdigits2_le_iff; lia. }
  destruct k as [|p|p]; try lia.
  unfold F.of_Z, binary_normalize, binary_round, shl_align.
  change (Z.pos (digits2_pos p)) with (Zdigits2 (Z.pos p)).
  rewrite fexp_eq, Z.add_0_r, Z.sub_0_r.
  replace (Z.max (Zdigits2 (Z.pos p) - 53) (-1074)) with (Zdigits2 (Z.pos p) - 53) by lia.
  destruct (Zdigits2 (Z.pos p) - 53) as [|d|d] eqn:E; try lia.
  - replace (53 - Zdigits2 (Z.pos p)) with 0 by lia. rewrite Z.mul_1_r.
    apply binary_round_aux_exact; lia.
  - rewrite Zpos_iter_xO, Z.shiftl_mul_pow2 by lia.
    replace (53 - Zdigits2 (Z.pos p)) with (Z.pos d) by lia.
    apply binary_round_aux_exact; [| |lia].
    + apply Z.mul_pos_pos; [lia|]. apply Z.pow_pos_nonneg; lia.
    + rewrite Zdigits2_log2 by (apply Z.mul_pos_pos; [lia|apply Z.pow_pos_nonneg; lia]).
      rewrite Z.log2_mul_pow2 by lia.
      rewrite Zdigits2_log2 in E by lia. lia.
Qed.

Lemma new_location_zero b : new_location b 0 = loc_Exact.
Proof. unfold new_location. destruct (Z.even b); reflexivity. Qed.

(** The quotient of [k * b] by [b] is the float of [k]: nothing is lost
    when the quotient has at most 53 digits. *)
Lemma div_Z_exact k b :
  0 <= k < 2 ^ 53 -> 0 < b -> F.div_Z (k * b) b = F.of_Z k.
Proof.
  intros Hk Hb. destruct (Z.eq_dec k 0) as [->|Hk0].
  { unfold F.div_Z. cbn [Z.mul Z.eqb Z.ltb Z.compare].
    replace (b <? 0) with false by (symmetry; apply Z.ltb_ge; lia). reflexivity. }
  rewrite of_Z_exact by lia.
  assert (Hd : 1 <= Zdigits2 k <= 53).
  { split; [rewrite Zdigits2_log2 by lia; pose proof (Z.log2_nonneg k); lia|].
    apply Zdigits2_le_iff; lia. }
  assert (Hkb : 0 < k * b) by nia.
  unfold F.div_Z.
  replace (k * b <? 0) with false by (symmetry; apply Z.ltb_ge; lia).
  replace (b <? 0) with false by (symmetry; apply Z.ltb_ge; lia).
  replace (k * b =? 0) with false by (symmetry; apply Z.eqb_neq; lia).
  cbn [xorb]. rewrite !Z.abs_eq by lia.
  unfold SFdiv_core_binary. change (0 - 0) with 0.
  rewrite !Z.add_0_r, fexp_eq.
  set (j := Zdigits2 k + Zdigits2 b - Zdigits2 (k * b)).
  assert (Hj : j = 0 \/ j = 1).
  { unfold j. rewrite !Zdigits2_log2 by lia.
    pose proof (Z.log2_mul_below k b ltac:(lia) ltac:(lia)).
    pose proof (Z.log2_mul_above k b ltac:(lia) ltac:(lia)). lia. }
  replace (Z.min (Z.max (Zdigits2 (k * b) - Zdigits2 b - 53) (-1074)) 0)
    with (Zdigits2 k - 53 - j) by (unfold j; lia).
  set (s := 0 - (Zdigits2 k - 53 - j)).
  assert (Hs : 0 <= s) by (unfold s; lia).
  set (m' := match s with Z.pos _ => Z.shiftl (k * b) s | 0 => k * b | Z.neg _ => 0 end).
  assert (Hm' : m' = (k * 2 ^ s) * b).
  { unfold m'. destruct s eqn:Es; [rewrite Z.pow_0_r; lia| |lia].
    rewrite Z.shiftl_mul_pow2 by lia. lia. }
  assert (Hq : m' / b = k * 2 ^ s) by (rewrite Hm'; apply Z.div_mul; lia).
  assert (Hr : m' mod b = 0) by (rewrite Hm'; apply Z.mod_mul; lia).
  unfold Z.div, Z.modulo in Hq, Hr.
  destruct (Z.div_eucl m' b) as [q r]. subst q r.
  rewrite new_location_zero.
  set (M := k * 2 ^ (53 - Zdigits2 k)).
  assert (HM : 0 < M) by (apply Z.mul_pos_pos; [lia|apply Z.pow_pos_nonneg; lia]).
  assert (HDM : Zdigits2 M = 53).
  { rewrite Zdigits2_log2 by done. unfold M. rewrite Z.log2_mul_pow2 by lia.
    rewrite Zdigits2_log2 in * by lia. lia. }
  destruct Hj as [Hj|Hj].
  - replace (k * 2 ^ s) with M by (unfold M, s; f_equal; f_equal; lia).
    replace (Zdigits2 k - 53 - j) with (Zdigits2 k - 53) by lia.
    apply binary_round_aux_exact; lia.
  - replace (k * 2 ^ s) with (2 * M).
    2:{ unfold M, s. replace (0 - (Zdigits2 k - 53 - j)) with (Z.succ (53 - Zdigits2 k)) by lia.
        rewrite Z.pow_succ_r by lia. lia. }
    replace (Zdigits2 k - 53 - j) with (Zdigits2 k - 53 - 1) by lia.
    apply binary_round_aux_exact_shift; lia.
Qed.

Lemma binary_round_aux_not_negative mx ex lx :
  0 <= mx -> not_negative (binary_round_aux F.prec F.emax false mx ex lx) = true.
Proof.
  intros Hm. unfold binary_round_aux.
  destruct (shr_fexp F.prec F.emax mx ex lx) as [mrs1 e1].
  destruct (shr_fexp F.prec F.emax _ e1 loc_Exact) as [mrs2 e2].
  destruct (shr_m mrs2); [reflexivity| |reflexivity].
  destruct (e2 <=? F.emax - F.prec); reflexivity.
Qed.

Lemma not_negative_sign x :
  not_negative x = true ->
  x = S754_nan \/ x = S754_zero false \/ x = S754_infinity false
  \/ exists m e, x = S754_finite false m e.
Proof. destruct x as [[]|[]| |[] m e]; cbn; try discriminate; eauto 6. Qed.

Lemma mul_not_negative x y :
  not_negative x = true -> not_negative y = true -> not_negative (F.mul x y) = true.
Proof.
  intros Hx Hy.
  destruct (not_negative_sign x Hx) as [->|[->|[->|(mx & ex & ->)]]];
    destruct (not_negative_sign y Hy) as [->|[->|[->|(my & ey & ->)]]];
    try reflexivity.
  cbn [F.mul SFmul xorb]. now apply binary_round_aux_not_negative.
Qed.

Lemma div_not_negative x y :
  not_negative x = true -> not_negative y = true -> not_negative (F.div x y) = true.
Proof.
  intros Hx Hy.
  destruct (not_negative_sign x Hx) as [->|[->|[->|(mx & ex & ->)]]];
    destruct (not_negative_sign y Hy) as [->|[->|[->|(my & ey & ->)]]];
    try reflexivity.
  unfold F.div, SFdiv, SFdiv_core_binary. cbn [xorb].
  match goal with |- context [Z.div_eucl ?a ?b] =>
    pose proof (Z.div_eucl_eq a b ltac:(lia)) as Hq;
    pose proof (Z.mod_pos_bound a b ltac:(lia)) as Hr;
    assert (Ha : 0 <= a); [|unfold Z.modulo in Hr; destruct (Z.div_eucl a b) as [q r]]
  end.
  { destruct (_ - _ - _); [lia| |lia]. apply Z.shiftl_nonneg. lia. }
  apply binary_round_aux_not_negative. nia.
Qed.

Lemma binary_normalize_not_negative m e :
  0 <= m -> not_negative (binary_normalize F.prec F.emax m e false) = true.
Proof.
  intros Hm. destruct m as [|p|p]; [reflexivity| |lia].
  unfold binary_normalize, binary_round.
  destruct (shl_align _ _ _). now apply binary_round_aux_not_negative.
Qed.

Lemma add_not_negative x y :
  not_negative x = true -> not_negative y = true -> not_negative (F.add x y) = true.
Proof.
  intros Hx Hy.
  destruct (not_negative_sign x Hx) as [->|[->|[->|(mx & ex & ->)]]];
    destruct (not_negative_sign y Hy) as [->|[->|[->|(my & ey & ->)]]];
    try reflexivity.
  unfold F.add, SFadd. cbn [cond_Zopp]. apply binary_normalize_not_negative. lia.
Qed.

Lemma of_Z_not_negative n : 0 <= n -> not_negative (F.of_Z n) = true.
Proof. apply binary_normalize_not_negative. Qed.

Lemma div_Z_not_negative a b : 0 <= a -> 0 < b -> not_negative (F.div_Z a b) = true.
Proof.
  intros Ha Hb. unfold F.div_Z.
  replace (a <? 0) with false by (symmetry; apply Z.ltb_ge; lia).
  replace (b <? 0) with false by (symmetry; apply Z.ltb_ge; lia).
  cbn [xorb]. destruct (a =? 0); [reflexivity|].
  unfold SFdiv_core_binary.
  match goal with |- context [Z.div_eucl ?x ?y] =>
    pose proof (Z.div_eucl_eq x y ltac:(lia)) as Hq;
    pose proof (Z.mod_pos_bound x y ltac:(lia)) as Hr;
    assert (Hx : 0 <= x); [|unfold Z.modulo in Hr; destruct (Z.div_eucl x y) as [q r]]
  end.
  { destruct (_ - _ - _); [lia| |lia]. apply Z.shiftl_nonneg. lia. }
  apply binary_round_aux_not_negative. nia.
Qed.

(** Rounding a non-negative mantissa never gives NaN. *)
Lemma binary_round_aux_class s mx ex lx :
  0 <= mx ->
  binary_round_aux F.prec F.emax s mx ex lx = S754_zero s
  \/ binary_round_aux F.prec F.emax s mx ex lx = S754_infinity s
  \/ exists m e, binary_round_aux F.prec F.emax s mx ex lx = S754_finite s m e.
Proof.
  intros Hm. unfold binary_round_aux.
  destruct (shr_fexp_spec mx ex lx Hm) as [_ M1].
  destruct (shr_fexp F.prec F.emax mx ex lx) as [mrs1 e1]. cbn [fst snd] in M1.
  assert (H1 : 0 <= shr_m mrs1) by (rewrite M1; now apply Z.shiftr_nonneg).
  pose proof (round_nearest_even_bounds (shr_m mrs1) (loc_of_shr_record mrs1)) as Hr.
  destruct (shr_fexp_spec (round_nearest_even (shr_m mrs1) (loc_of_shr_record mrs1))
              e1 loc_Exact ltac:(lia)) as [_ M2].
  destruct (shr_fexp F.prec F.emax _ e1 loc_Exact) as [mrs2 e2]. cbn [fst snd] in M2.
  assert (H2 : 0 <= shr_m mrs2) by (rewrite M2; apply Z.shiftr_nonneg; lia).
  destruct (shr_m mrs2) as [|m|m]; [now left| |lia].
  destruct (e2 <=? F.emax - F.prec); eauto.
Qed.

Lemma of_Z_class n :
  0 <= n ->
  F.of_Z n = S754_zero false \/ F.of_Z n = S754_infinity false
  \/ exists m e, F.of_Z n = S754_finite false m e.
Proof.
  intros Hn. destruct n as [|p|p]; [now left| |lia].
  unfold F.of_Z, binary_normalize, binary_round.
  destruct (shl_align _ _ _). now apply binary_round_aux_class.
Qed.

Lemma div_Z_class a b :
  0 <= a -> 0 < b ->
  F.div_Z a b = S754_zero false \/ F.div_Z a b = S754_infinity false
  \/ exists m e, F.div_Z a b = S754_finite false m e.
Proof.
  intros Ha Hb. unfold F.div_Z.
  replace (a <? 0) with false by (symmetry; apply Z.ltb_ge; lia).
  replace (b <? 0) with false by (symmetry; apply Z.ltb_ge; lia).
  cbn [xorb]. destruct (a =? 0); [now left|].
  unfold SFdiv_core_binary.
  match goal with |- context [Z.div_eucl ?x ?y] =>
    pose proof (Z.div_eucl_eq x y ltac:(lia)) as Hq;
    pose proof (Z.mod_pos_bound x y ltac:(lia)) as Hr;
    assert (Hx : 0 <= x); [|unfold Z.modulo in Hr; destruct (Z.div_eucl x y) as [q r]]
  end.
  { destruct (_ - _ - _); [lia| |lia]. apply Z.shiftl_nonneg. lia. }
  apply binary_round_aux_class. nia.
Qed.

Lemma add_plus_zero t : not_negative t = true -> F.add t (S754_zero false) = t.
Proof. destruct t as [[]|[]| |[] m e]; cbn; try discriminate; reflexivity. Qed.

Lemma number_not_negative p :
  p = S754_zero false \/ (exists m e, p = S754_finite false m e) -> not_negative p = true.
Proof. intros [->|(m & e & ->)]; reflexivity. Qed.

(** * More facts about the Python operations *)

Lemma float_of_int_nonzero n f :
  n <> 0 -> float_of_int n = Ok f -> F.eq_zero f = false.
Proof.
  intros Hn. unfold float_of_int.
  destruct (of_Z_finite_or_infinity n Hn) as [(m & e & ->)| ->]; [|discriminate].
  cbn. intros [= <-]. now destruct (n <? 0).
Qed.




Lemma float_of_int_ok n f : float_of_int n = Ok f -> f = F.of_Z n.
Proof. unfold float_of_int. destruct (F.is_infinity _); [discriminate|]. now intros [= <-]. Qed.

Lemma int_truediv_ok a b f : int_truediv a b = Ok f -> b <> 0 /\ f = F.div_Z a b.
Proof.
  unfold int_truediv. destruct (b =? 0) eqn:Eb; [discriminate|].
  apply Z.eqb_neq in Eb. destruct (F.is_infinity _); [discriminate|].
  now intros [= <-].
Qed.

(** A float that is a plain number at or above zero. *)
Lemma float_of_int_number n f :
  0 <= n -> float_of_int n = Ok f ->
  f = S754_zero false \/ exists m e, f = S754_finite false m e.
Proof.
  intros Hn. unfold float_of_int.
  destruct (of_Z_class n Hn) as [->|[->|(m & e & ->)]]; cbn [F.is_infinity].
  - intros [= <-]. now left.
  - discriminate.
  - intros [= <-]. eauto.
Qed.

Lemma int_truediv_number a b f :
  0 <= a -> 0 < b -> int_truediv a b = Ok f ->
  f = S754_zero false \/ exists m e, f = S754_finite false m e.
Proof.
  intros Ha Hb. unfold int_truediv.
  replace (b =? 0) with false by (symmetry; apply Z.eqb_neq; lia).
  destruct (div_Z_class a b Ha Hb) as [->|[->|(m & e & ->)]]; cbn [F.is_infinity].
  - intros [= <-]. now left.
  - discriminate.
  - intros [= <-]. eauto.
Qed.

(** Whole amounts. *)
Lemma int_truediv_exact k b :
  0 <= k < 2 ^ 53 -> 0 < b -> int_truediv (k * b) b = Ok (F.of_Z k).
Proof.
  intros Hk Hb. unfold int_truediv.
  replace (b =? 0) with false by (symmetry; apply Z.eqb_neq; lia).
  rewrite div_Z_exact by done.
  destruct (Z.eq_dec k 0) as [->|Hk0]; [reflexivity|].
  now rewrite of_Z_exact by lia.
Qed.

Lemma is_pair_inv result :
  is_pair result = true -> exists r b, result = VTuple [r; b].
Proof.
  destruct result as [| | | | |items]; try discriminate.
  destruct items as [|x [|y [|z rest]]]; try discriminate. eauto.
Qed.

(** [main_output]. *)
Lemma handler_line_final e :
  is_final_line (handler_line e) = true /\ is_failure_line (handler_line e) = true.
Proof. unfold handler_line. destruct (is_expected_error _); split; reflexivity. Qed.

Section ReducerFacts.
Context `{Platform}.







(** Signs. *)
Lemma price_in_usd_not_negative raw decimals p :
  0 <= raw ->
  market_ref_currency_price_in_usd (VInt raw) (VInt decimals) = Ok p ->
  not_negative p = true.
Proof.
  intros Hraw. unfold market_ref_currency_price_in_usd, py_gt_zero.
  cbn [to_number bind]. destruct (0 <? decimals) eqn:Ed.
  - apply Z.ltb_lt in Ed. unfold py_pow10. cbn [to_number].
    replace (0 <=? decimals) with true by (symmetry; apply Z.leb_le; lia).
    cbn [bind]. unfold py_truediv. cbn [to_number].
    intros Hp. apply int_truediv_ok in Hp as [_ ->].
    apply div_Z_not_negative; [done|]. apply Z.pow_pos_nonneg; lia.
  - unfold py_float. cbn [to_number number_to_float].
    intros Hp. apply float_of_int_ok in Hp as ->. now apply of_Z_not_negative.
Qed.

Lemma contribution_not_negative unit price r v x :
  0 <= unit -> not_negative price = true ->
  nonneg_reserve r -> encodes_reserve r v ->
  contribution (VInt unit) price v = Some x ->
  not_negative x = true.
Proof.
  intros Hu Hp [Hd Hl Hpr] Hv. unfold contribution, reserve_body. rewrite Hv.
  cbn [bind]. unfold process_fields, fields_of.
  destruct (skipped_by_gate _); [discriminate|].
  unfold normalized_total_supplied_asset, py_pow10.
  cbn [asset_decimals available_liquidity_raw to_number].
  replace (0 <=? Spec.assetDecimals r) with true by (symmetry; apply Z.leb_le; lia).
  cbn [bind]. unfold py_truediv. cbn [to_number].
  destruct (int_truediv _ _) as [n|] eqn:En; cbn [bind]; [|discriminate].
  apply int_truediv_ok in En as [_ ->].
  destruct (py_eq_zero (VInt unit)); [discriminate|].
  unfold value_in_market_ref_currency, float_mul_py, float_truediv_py.
  cbn [price_in_market_ref_currency to_number number_to_float].
  destruct (float_of_int (Spec.priceInMarketReferenceCurrency r)) as [b|] eqn:Eb;
    cbn [bind]; [|discriminate].
  apply float_of_int_ok in Eb as ->.
  destruct (float_of_int unit) as [y|] eqn:Ey; cbn [bind]; [|discriminate].
  apply float_of_int_ok in Ey as ->.
  unfold float_truediv. destruct (F.eq_zero _); cbn [bind]; [discriminate|].
  intros [= <-].
  apply mul_not_negative; [|done].
  apply div_not_negative; [|now apply of_Z_not_negative].
  apply mul_not_negative; [|now apply of_Z_not_negative].
  apply div_Z_not_negative; [done|]. apply Z.pow_pos_nonneg; lia.
Qed.

Lemma price_in_usd_number raw decimals p :
  0 <= raw ->
  market_ref_currency_price_in_usd (VInt raw) (VInt decimals) = Ok p ->
  p = S754_zero false \/ exists m e, p = S754_finite false m e.
Proof.
  intros Hraw. unfold market_ref_currency_price_in_usd, py_gt_zero.
  cbn [to_number bind]. destruct (0 <? decimals) eqn:Ed.
  - apply Z.ltb_lt in Ed. unfold py_pow10. cbn [to_number].
    replace (0 <=? decimals) with true by (symmetry; apply Z.leb_le; lia).
    cbn [bind]. unfold py_truediv. cbn [to_number].
    apply int_truediv_number; [done|]. apply Z.pow_pos_nonneg; lia.
  - unfold py_float. cbn [to_number number_to_float]. now apply float_of_int_number.
Qed.

(** A reserve without liquidity adds [+0.0] if it adds anything. *)
Lemma contribution_zero_liquidity unit price r v x :
  0 <= unit ->
  (price = S754_zero false \/ exists m e, price = S754_finite false m e) ->
  nonneg_reserve r -> Spec.availableLiquidity r = 0 -> encodes_reserve r v ->
  contribution (VInt unit) price v = Some x ->
  x = S754_zero false.
Proof.
  intros Hu Hp [Hd Hl Hpr] Hz Hv. unfold contribution, reserve_body. rewrite Hv.
  cbn [bind]. unfold process_fields, fields_of.
  destruct (skipped_by_gate _); [discriminate|].
  unfold normalized_total_supplied_asset, py_pow10.
  cbn [asset_decimals available_liquidity_raw to_number]. rewrite Hz.
  replace (0 <=? Spec.assetDecimals r) with true by (symmetry; apply Z.leb_le; lia).
  cbn [bind]. unfold py_truediv. cbn [to_number].
  unfold int_truediv. rewrite (proj2 (Z.eqb_neq _ 0) (pow10_nonzero _ Hd)).
  replace (F.div_Z 0 (10 ^ Spec.assetDecimals r)) with (S754_zero false).
  2:{ unfold F.div_Z. cbn [Z.eqb Z.ltb Z.compare].
      replace (10 ^ Spec.assetDecimals r <? 0) with false; [reflexivity|].
      symmetry. apply Z.ltb_ge. apply Z.pow_nonneg. lia. }
  cbn [F.is_infinity bind].
  destruct (py_eq_zero (VInt unit)) eqn:Ez; [discriminate|].
  unfold py_eq_zero in Ez. cbn [to_number] in Ez. apply Z.eqb_neq in Ez.
  unfold value_in_market_ref_currency, float_mul_py, float_truediv_py.
  cbn [price_in_market_ref_currency to_number number_to_float].
  destruct (float_of_int (Spec.priceInMarketReferenceCurrency r)) as [b|] eqn:Eb;
    cbn [bind]; [|discriminate].
  destruct (float_of_int unit) as [y|] eqn:Ey; cbn [bind]; [|discriminate].
  unfold float_truediv.
  pose proof (float_of_int_nonzero unit y Ez Ey) as Hy. rewrite Hy. cbn [bind].
  intros [= <-].
  destruct (float_of_int_number _ _ Hpr Eb) as [->|(mb & eb & ->)];
    destruct (float_of_int_number _ _ Hu Ey) as [->|(my & ey & ->)];
    destruct Hp as [->|(mp & ep & ->)]; try discriminate Hy; reflexivity.
Qed.

Lemma decode_base_nonneg unit raw unused decimals rest u p :
  0 <= raw ->
  decode_base (VTuple (VInt unit :: VInt raw :: unused :: VInt decimals :: rest)) = Ok (u, p) ->
  u = VInt unit /\ (p = S754_zero false \/ exists m e, p = S754_finite false m e).
Proof.
  intros Hraw. unfold decode_base. rewrite !py_getitem_tuple.
  cbn [lookup list_lookup bind].
  destruct (market_ref_currency_price_in_usd (VInt raw) (VInt decimals)) as [p'|] eqn:Ep;
    cbn [bind]; [|discriminate].
  intros [= <- <-]. split; [done|]. eapply price_in_usd_number; eauto.
Qed.

Lemma fold_not_negative unit p rs vs :
  0 <= unit -> not_negative p = true ->
  Forall nonneg_reserve rs -> Forall2 encodes_reserve rs vs ->
  forall t, not_negative t = true ->
            not_negative (fold_left (add_contribution (VInt unit) p) vs t) = true.
Proof.
  intros Hu Hp Hrs Hvs. induction Hvs as [|r v rs vs Hv Hvs IH]; intros t Ht; [exact Ht|].
  apply Forall_cons in Hrs as [Hr Hrs]. cbn [fold_left]. apply IH; [done|].
  unfold add_contribution.
  destruct (contribution (VInt unit) p v) as [x|] eqn:Ex; [|exact Ht].
  apply add_not_negative; [exact Ht|].
  apply (contribution_not_negative unit p r v x); assumption.
Qed.

Lemma reducer_lines_on_raise reserves_data base e lines :
  calculate_total_tvl reserves_data base = (Raise e, lines) ->
  Forall (fun l => is_reserve_line (OutReducer l) = false) lines.
Proof.
  unfold calculate_total_tvl.
  destruct (decode_base base) as [[u p]|e'].
  - destruct (format_value u).
    + destruct (py_items reserves_data); [discriminate|].
      intros [= <- <-]. repeat constructor.
    + intros [= <- <-]. repeat constructor.
  - intros [= <- <-]. constructor.
Qed.

End ReducerFacts.

(** A pair comes back only from a two-element response. *)
Lemma get_aave_reserves_data_ok_inv call reserves_data base_currency_info :
  get_aave_reserves_data call = Ok (reserves_data, base_currency_info) ->
  call = Ok (VTuple [reserves_data; base_currency_info]).
Proof.
  unfold get_aave_reserves_data, fetch_body.
  destruct call as [result|e0]; cbn [bind].
  - destruct (is_pair result) eqn:Ep; cbn [negb]; [|discriminate].
    destruct (is_pair_inv result Ep) as (r & b & ->). now intros [= <- <-].
  - destruct (exn_cls e0); discriminate.
Qed.

(** The value a reserve adds depends on five of its fields. *)
Lemma contribution_same_fields `{Platform} unit price v v' :
  same_value_fields v v' -> contribution unit price v = contribution unit price v'.
Proof.
  intros (fs & fs' & Hv & Hv' & Hd & Ha & Hf & Hl & Hp).
  unfold contribution, reserve_body. rewrite Hv, Hv'. cbn [bind].
  unfold process_fields, skipped_by_gate, normalized_total_supplied_asset.
  rewrite Ha, Hf, Hd, Hl, Hp.
  destruct (negb _ || _); [reflexivity|].
  destruct (py_pow10 _) as [d|]; cbn [bind]; [|reflexivity].
  destruct (py_truediv _ d) as [n|]; cbn [bind]; [|reflexivity].
  destruct (py_eq_zero unit); [reflexivity|].
  destruct (value_in_market_ref_currency _ _ _); reflexivity.
Qed.

(** * Further properties of the program *)

(** X1.  What leaves [get_aave_reserves_data].  It returns a pair only
    when the call returned a list or tuple of exactly the two elements of
    the pair.  Otherwise it raises one of two classes: [ContractLogicError],
    exactly when the call raised one, with the call's text behind a prefix;
    or a plain [Exception], for any other exception of the call and for a
    response of another shape, again with the original text behind a
    prefix. *)
Theorem get_aave_reserves_data_outcomes call :
  match get_aave_reserves_data call with
  | Ok (reserves_data, base_currency_info) =>
      call = Ok (VTuple [reserves_data; base_currency_info])
  | Raise e =>
      (exn_cls e = ContractLogicError
       /\ exists e0, call = Raise e0 /\ exn_cls e0 = ContractLogicError
                     /\ exn_text e
                        = MsgPrefixed "Contract logic error when calling getReservesData: "
                                      (exn_text e0))
      \/ (exn_cls e = Exception
          /\ exists inner,
               exn_text e = MsgPrefixed "Unknown error while fetching reserve data: " inner
               /\ ((exists e0, call = Raise e0 /\ exn_cls e0 <> ContractLogicError
                               /\ inner = exn_text e0)
                   \/ (exists result, call = Ok result /\ is_pair result = false
                                      /\ inner = exn_text (unexpected_response_format result))))
  end.
Proof.
  unfold get_aave_reserves_data, fetch_body.
  destruct call as [result|e0]; cbn [bind].
  - destruct (is_pair result) eqn:Ep; cbn [negb].
    + destruct (is_pair_inv result Ep) as (r & b & ->). reflexivity.
    + right. split; [reflexivity|]. eexists. split; [reflexivity|].
      right. eauto.
  - destruct (exn_cls e0) eqn:Ec;
      try (right; split; [reflexivity|]; eexists; split; [reflexivity|];
           left; exists e0; split; [done|]; split; [congruence|done]).
    left. split; [reflexivity|]. exists e0. eauto.
Qed.

(** X2.  [main] prints the final figure [tvl] exactly when the node is
    connected, the block number could be read, the ABI file loaded, the
    call returned a two-element list or tuple, and the reducer returned
    [tvl] on its two elements. *)
Theorem main_output_reports_tvl_iff `{Platform} is_connected block_number abi call tvl :
  OutComplete tvl ∈ main_output is_connected block_number abi call
  <-> is_connected = true /\ (exists n, block_number = Ok n) /\ abi = AbiLoaded
      /\ exists reserves_data base_currency_info,
           call = Ok (VTuple [reserves_data; base_currency_info])
           /\ fst (calculate_total_tvl reserves_data base_currency_info) = Ok tvl.
Proof.
  assert (Hh : forall e, OutComplete tvl ∈ [handler_line e] -> False).
  { intros e Hin. apply list_elem_of_singleton in Hin. unfold handler_line in Hin.
    destruct (is_expected_error _); discriminate. }
  split.
  - unfold main_output, connect_to_web3, load_abi.
    destruct is_connected; [|intros Hin; now apply Hh in Hin].
    destruct block_number as [n|e]; [|intros Hin; now apply Hh in Hin].
    intros Hin. apply elem_of_cons in Hin as [|Hin]; [discriminate|].
    destruct abi; try (now apply Hh in Hin).
    apply elem_of_cons in Hin as [|Hin]; [discriminate|].
    destruct (get_aave_reserves_data call) as [[r b]|e] eqn:Hf; [|now apply Hh in Hin].
    apply get_aave_reserves_data_ok_inv in Hf.
    destruct (calculate_total_tvl r b) as [res lines] eqn:Ec.
    apply elem_of_app in Hin as [Hin|Hin].
    { apply list_elem_of_fmap in Hin as (x & ? & _). discriminate. }
    destruct res as [t|e]; [|now apply Hh in Hin].
    apply list_elem_of_singleton in Hin. injection Hin as ->.
    repeat split; eauto. exists r, b. now rewrite Ec.
  - intros (-> & (n & ->) & -> & r & b & -> & Ht).
    unfold main_output. cbn [connect_to_web3 load_abi].
    change (get_aave_reserves_data (Ok (VTuple [r; b]))) with (Ok (A := pyval * pyval) (r, b)).
    cbn iota beta. destruct (calculate_total_tvl r b) as [res lines]. cbn [fst] in Ht. subst res.
    rewrite !elem_of_cons, elem_of_app, list_elem_of_singleton. tauto.
Qed.

Lemma main_output_reports_tvl_iff_witness :
  OutComplete F.one
  ∈ main_output (H := example_platform) true (Ok 19000000) AbiLoaded
      (Ok (VTuple [VTuple [usdc]; example_base 100000 2 0])).
Proof.
  apply (proj2 (@main_output_reports_tvl_iff example_platform true (Ok 19000000) AbiLoaded
                  (Ok (VTuple [VTuple [usdc]; example_base 100000 2 0])) F.one)).
  split; [reflexivity|]. split; [exists 19000000; reflexivity|]. split; [reflexivity|].
  exists (VTuple [usdc]), (example_base 100000 2 0). split; reflexivity.
Defined.

(** X3.  Every run of [main] ends with exactly one closing line, the
    final figure or the line of a handler, and prints no closing line
    before it.  When the closing line is a handler's, no line about a
    single reserve was printed before it: a failure is never reported
    after a part of the per-reserve breakdown. *)
Theorem main_output_ends_once `{Platform} is_connected block_number abi call :
  exists before last,
    main_output is_connected block_number abi call = before ++ [last]
    /\ is_final_line last = true
    /\ Forall (fun l => is_final_line l = false) before
    /\ (is_failure_line last = true -> Forall (fun l => is_reserve_line l = false) before).
Proof.
  unfold main_output, connect_to_web3, load_abi.
  destruct is_connected.
  2:{ exists [], (handler_line (mk_exn ConnectionError (MsgText "Failed to connect to Ethereum network"))).
      repeat split; try constructor. }
  destruct block_number as [n|e].
  2:{ exists [], (handler_line e). pose proof (handler_line_final e) as [? ?].
      repeat split; try constructor; done. }
  destruct abi.
  1,2: eexists [OutLatestBlock n], _; split; [reflexivity|];
       repeat split; repeat constructor.
  destruct (get_aave_reserves_data call) as [[r b]|e].
  2:{ exists [OutLatestBlock n; OutCalling], (handler_line e).
      pose proof (handler_line_final e) as [? ?].
      repeat split; repeat constructor; done. }
  destruct (calculate_total_tvl r b) as [[t|e] lines] eqn:Ec.
  - exists (OutLatestBlock n :: OutCalling :: map OutReducer lines), (OutComplete t).
    repeat split; try discriminate.
    repeat constructor. apply Forall_forall. intros l Hl.
    apply list_elem_of_fmap in Hl as (x & -> & _). reflexivity.
  - exists (OutLatestBlock n :: OutCalling :: map OutReducer lines), (handler_line e).
    pose proof (handler_line_final e) as [? ?].
    repeat split; try done.
    + repeat constructor. apply Forall_forall. intros l Hl.
      apply list_elem_of_fmap in Hl as (x & -> & _). reflexivity.
    + intros _. repeat constructor.
      pose proof (reducer_lines_on_raise r b e lines Ec) as Hl.
      apply Forall_forall. intros l Hin.
      apply list_elem_of_fmap in Hin as (x & -> & Hx).
      rewrite Forall_forall in Hl. now apply Hl.
Qed.

(** X4.  Which handler reports which failure.  A node that is not
    connected, a missing ABI file and an ABI file that is not JSON are
    reported by the handler of the expected errors, with the classes
    [ConnectionError], [FileNotFoundError] and [ValueError], and the later
    steps do not matter.  Of the exceptions of the contract call only a
    [ContractLogicError] is reported as an expected error; every other one,
    whatever its class, reaches [main] as a plain [Exception] and is
    reported as an unknown critical error, as is a response that is not a
    list or tuple of two elements. *)
Theorem main_output_failure_lines `{Platform} :
  (forall block_number abi call,
      exists e, main_output false block_number abi call = [OutError e]
                /\ exn_cls e = ConnectionError)
  /\ (forall e abi call,
         main_output true (Raise e) abi call = [handler_line e])
  /\ (forall n call,
         exists e, main_output true (Ok n) AbiMissing call = [OutLatestBlock n; OutError e]
                   /\ exn_cls e = FileNotFoundError)
  /\ (forall n call,
         exists e, main_output true (Ok n) AbiInvalidJson call = [OutLatestBlock n; OutError e]
                   /\ exn_cls e = ValueError)
  /\ (forall n e0,
         exn_cls e0 = ContractLogicError ->
         exists e, main_output true (Ok n) AbiLoaded (Raise e0)
                   = [OutLatestBlock n; OutCalling; OutError e]
                   /\ exn_cls e = ContractLogicError)
  /\ (forall n e0,
         exn_cls e0 <> ContractLogicError ->
         exists e, main_output true (Ok n) AbiLoaded (Raise e0)
                   = [OutLatestBlock n; OutCalling; OutUnknownCriticalError e]
                   /\ exn_cls e = Exception)
  /\ (forall n result,
         is_pair result = false ->
         exists e, main_output true (Ok n) AbiLoaded (Ok result)
                   = [OutLatestBlock n; OutCalling; OutUnknownCriticalError e]
                   /\ exn_cls e = Exception).
Proof.
  repeat split.
  - intros. eexists. split; reflexivity.
  - intros. eexists. split; reflexivity.
  - intros. eexists. split; reflexivity.
  - intros n e0 Hc. eexists. unfold main_output, get_aave_reserves_data.
    cbn [connect_to_web3 load_abi fetch_body bind]. rewrite Hc. split; reflexivity.
  - intros n e0 Hc. eexists. unfold main_output, get_aave_reserves_data.
    cbn [connect_to_web3 load_abi fetch_body bind].
    destruct (exn_cls e0); try congruence; split; reflexivity.
  - intros n result Hp. eexists. unfold main_output, get_aave_reserves_data, fetch_body.
    cbn [connect_to_web3 load_abi bind]. rewrite Hp. cbn [negb]. split; reflexivity.
Qed.

Lemma main_output_failure_lines_witness :
  (exists e,
      main_output (H := example_platform) true (Ok 19000000) AbiLoaded
        (Raise (mk_exn ContractLogicError (MsgText "execution reverted")))
      = [OutLatestBlock 19000000; OutCalling; OutError e]
      /\ exn_cls e = ContractLogicError)
  /\ (exists e,
         main_output (H := example_platform) true (Ok 19000000) AbiLoaded
           (Raise (mk_exn ConnectionError (MsgText "connection reset")))
         = [OutLatestBlock 19000000; OutCalling; OutUnknownCriticalError e]
         /\ exn_cls e = Exception)
  /\ (exists e,
         main_output (H := example_platform) true (Ok 19000000) AbiLoaded (Ok (VTuple [usdc]))
         = [OutLatestBlock 19000000; OutCalling; OutUnknownCriticalError e]
         /\ exn_cls e = Exception).
Proof.
  pose proof (@main_output_failure_lines example_platform)
    as (_ & _ & _ & _ & Hrevert & Hother & Hshape).
  split; [|split].
  - apply Hrevert. reflexivity.
  - apply Hother. discriminate.
  - apply Hshape. reflexivity.
Defined.

(** X5.  End to end on a well-formed response: with a connected node, a
    readable block number and a loaded ABI, [main] prints the block
    number, the call line, the reducer's lines and then, as the final
    figure, the specification's total over the records. *)
Theorem main_output_spec_total `{Platform} n b unused rest rs vs :
  wf_base_info b -> Forall wf_reserve rs -> Forall2 encodes_reserve rs vs ->
  exists lines,
    main_output true (Ok n) AbiLoaded (Ok (VTuple [VTuple vs; base_tuple b unused rest]))
    = OutLatestBlock n :: OutCalling :: map OutReducer lines ++ [OutComplete (Spec.total b rs)].
Proof.
  intros Hb Hrs Hvs. unfold main_output. cbn [connect_to_web3 load_abi].
  change (get_aave_reserves_data (Ok (VTuple [VTuple vs; base_tuple b unused rest])))
    with (Ok (A := pyval * pyval) (VTuple vs, base_tuple b unused rest)).
  cbn iota beta.
  pose proof (calculate_total_tvl_wf b unused rest vs Hb) as Ht.
  destruct (calculate_total_tvl (VTuple vs) (base_tuple b unused rest)) as [res lines].
  cbn [fst] in Ht. subst res. exists lines. do 5 f_equal.
  unfold sum_contributions, Spec.total. now apply fold_contributions_wf.
Qed.

Lemma main_output_spec_total_witness :
  exists lines,
    main_output (H := example_platform) true (Ok 19000000) AbiLoaded
      (Ok (VTuple [VTuple [usdc; weth]; example_base 100000000 100000000 8]))
    = OutLatestBlock 19000000 :: OutCalling :: map OutReducer lines
      ++ [OutComplete (Spec.total example_info [usdc_record; weth_record])].
Proof.
  apply (@main_output_spec_total example_platform 19000000 example_info (VInt 0) []
           [usdc_record; weth_record] [usdc; weth]).
  - split; [discriminate|apply fits_float_small; reflexivity..].
  - constructor; [|constructor; [|constructor]];
      (split; [discriminate|apply fits_float_small; reflexivity..]).
  - constructor; [reflexivity|]. constructor; [reflexivity|]. constructor.
Defined.





(** X8.  Whole amounts lose nothing.  When the liquidity is [k] whole
    tokens, [k * 10^assetDecimals] with [0 <= k < 2^53], the normalized
    quantity is exactly [float(k)], whatever the number of decimals; a raw
    price of [k * 10^priceDecimals] gives the price [float(k)]; and
    [float(1)] is [1.0]. *)
Theorem whole_amounts_are_exact `{Platform} :
  (forall fs k decimals,
      asset_decimals fs = VInt decimals -> 0 <= decimals ->
      available_liquidity_raw fs = VInt (k * 10 ^ decimals) ->
      0 <= k < 2 ^ 53 ->
      normalized_total_supplied_asset fs = Ok (F.of_Z k))
  /\ (forall k decimals,
         0 <= k < 2 ^ 53 -> 0 < decimals ->
         market_ref_currency_price_in_usd (VInt (k * 10 ^ decimals)) (VInt decimals)
         = Ok (F.of_Z k))
  /\ F.of_Z 1 = F.one.
Proof.
  split; [|split; [|reflexivity]].
  - intros fs k d Hd Hnn Hl Hk. unfold normalized_total_supplied_asset, py_pow10.
    rewrite Hd, Hl. cbn [to_number].
    replace (0 <=? d) with true by (symmetry; apply Z.leb_le; lia).
    cbn [bind]. unfold py_truediv. cbn [to_number].
    apply int_truediv_exact; [done|]. apply Z.pow_pos_nonneg; lia.
  - intros k d Hk Hd. unfold market_ref_currency_price_in_usd, py_gt_zero.
    cbn [to_number bind].
    replace (0 <? d) with true by (symmetry; apply Z.ltb_lt; lia).
    unfold py_pow10. cbn [to_number].
    replace (0 <=? d) with true by (symmetry; apply Z.leb_le; lia).
    cbn [bind]. unfold py_truediv. cbn [to_number].
    apply int_truediv_exact; [done|]. apply Z.pow_pos_nonneg; lia.
Qed.

Lemma whole_amounts_are_exact_witness :
  normalized_total_supplied_asset (H := example_platform)
    (mk_fields (VStr "WETH") (VInt 18) (VBool true) (VBool false)
               (VInt (3 * 10 ^ 18)) (VInt 10) (VInt (2000 * 10 ^ 8)))
  = Ok (F.of_Z 3)
  /\ market_ref_currency_price_in_usd (H := example_platform) (VInt (1 * 10 ^ 8)) (VInt 8)
     = Ok (F.of_Z 1).
Proof.
  pose proof (@whole_amounts_are_exact example_platform) as (Hqty & Hprice & _).
  split.
  - apply (Hqty _ 3 18); [reflexivity|lia|reflexivity|split; [lia|reflexivity]].
  - apply (Hprice 1 8); [split; [lia|reflexivity]|lia].
Defined.

(** X9.  With no negative number in it, a response never gives a total
    below zero.  When the unit, the raw price and, in every reserve, the
    decimals, the liquidity and the price are non-negative ints, of any
    size, the float returned has a clear sign bit, or is NaN. *)
Theorem total_never_negative `{Platform} unit raw unused decimals rest rs vs total :
  0 <= unit -> 0 <= raw ->
  Forall nonneg_reserve rs -> Forall2 encodes_reserve rs vs ->
  fst (calculate_total_tvl (VTuple vs)
         (VTuple (VInt unit :: VInt raw :: unused :: VInt decimals :: rest)))
  = Ok total ->
  not_negative total = true.
Proof.
  intros Hu Hraw Hrs Hvs.
  destruct (decode_base (VTuple (VInt unit :: VInt raw :: unused :: VInt decimals :: rest)))
    as [[u p]|e] eqn:Hbase.
  2:{ unfold calculate_total_tvl. rewrite Hbase. cbn [fst]. discriminate. }
  rewrite calculate_total_tvl_fst, Hbase.
  destruct (format_value u); [|discriminate]. intros [= <-].
  destruct (decode_base_nonneg _ _ _ _ _ _ _ Hraw Hbase) as [-> Hp].
  apply (fold_not_negative unit p rs vs Hu (number_not_negative p Hp) Hrs Hvs).
  reflexivity.
Qed.

Lemma total_never_negative_witness :
  not_negative (sum_contributions (H := example_platform) (VInt 100000000) F.one [usdc; weth])
  = true.
Proof.
  apply (@total_never_negative example_platform 100000000 100000000 (VInt 0) 8 []
           [usdc_record; weth_record] [usdc; weth]).
  - lia.
  - lia.
  - constructor; [|constructor; [|constructor]]; split; cbn; lia.
  - constructor; [reflexivity|]. constructor; [reflexivity|]. constructor.
  - apply calculate_total_tvl_sum; reflexivity.
Defined.

(** X10.  A reserve without liquidity does not move the total.  When
    the unit, the raw price and the decimals, liquidity and price of the
    reserves before it are non-negative ints, removing a reserve with
    [availableLiquidity = 0] and non-negative int decimals and price
    leaves the value returned unchanged, whatever follows it in the
    list. *)
Theorem zero_liquidity_leaves_total `{Platform} unit raw unused decimals rest rs vs r v back :
  0 <= unit -> 0 <= raw ->
  Forall nonneg_reserve rs -> Forall2 encodes_reserve rs vs ->
  nonneg_reserve r -> Spec.availableLiquidity r = 0 -> encodes_reserve r v ->
  fst (calculate_total_tvl (VTuple (vs ++ v :: back))
         (VTuple (VInt unit :: VInt raw :: unused :: VInt decimals :: rest)))
  = fst (calculate_total_tvl (VTuple (vs ++ back))
           (VTuple (VInt unit :: VInt raw :: unused :: VInt decimals :: rest))).
Proof.
  intros Hu Hraw Hrs Hvs Hr Hz Hv.
  destruct (decode_base (VTuple (VInt unit :: VInt raw :: unused :: VInt decimals :: rest)))
    as [[u p]|e] eqn:Hbase.
  2:{ unfold calculate_total_tvl. now rewrite Hbase. }
  rewrite !calculate_total_tvl_fst, Hbase.
  destruct (format_value u); [|reflexivity]. f_equal.
  destruct (decode_base_nonneg _ _ _ _ _ _ _ Hraw Hbase) as [-> Hp].
  unfold sum_contributions. rewrite !fold_left_app. cbn [fold_left]. f_equal.
  pose proof (fold_not_negative unit p rs vs Hu (number_not_negative p Hp) Hrs Hvs
                F.zero eq_refl) as Ht.
  set (t := fold_left (add_contribution (VInt unit) p) vs F.zero) in *.
  change (add_contribution (VInt unit) p t v = t).
  unfold add_contribution.
  destruct (contribution (VInt unit) p v) as [x|] eqn:Ex; [|reflexivity].
  rewrite (contribution_zero_liquidity unit p r v x Hu Hp Hr Hz Hv Ex).
  now apply add_plus_zero.
Qed.

Lemma zero_liquidity_leaves_total_witness :
  fst (calculate_total_tvl (H := example_platform) (VTuple ([usdc] ++ empty_pool :: [weth]))
         (VTuple [VInt 100000000; VInt 100000000; VInt 0; VInt 8]))
  = fst (calculate_total_tvl (H := example_platform) (VTuple ([usdc] ++ [weth]))
           (VTuple [VInt 100000000; VInt 100000000; VInt 0; VInt 8])).
Proof.
  apply (@zero_liquidity_leaves_total example_platform 100000000 100000000 (VInt 0) 8 []
           [usdc_record] [usdc] empty_pool_record empty_pool [weth]).
  - lia.
  - lia.
  - constructor; [|constructor]. split; cbn; lia.
  - constructor; [reflexivity|constructor].
  - split; cbn; lia.
  - reflexivity.
  - reflexivity.
Defined.



(** X12.  Only the positions read matter.  Two lists of reserves whose
    fields can be read and that agree, reserve by reserve, on decimals,
    the two flags, the liquidity and the price give the same value,
    whatever the symbols, the debts, the other positions and any further
    positions hold; and neither position 2 of the base currency info nor
    what follows position 3 reaches step 1. *)
Theorem total_depends_on_fields_read `{Platform} :
  (forall vs vs' base,
      Forall2 same_value_fields vs vs' ->
      fst (calculate_total_tvl (VTuple vs) base) = fst (calculate_total_tvl (VTuple vs') base))
  /\ (forall unit raw unused decimals rest unused' rest',
         decode_base (VTuple (unit :: raw :: unused :: decimals :: rest))
         = decode_base (VTuple (unit :: raw :: unused' :: decimals :: rest'))).
Proof.
  split; [|reflexivity].
  intros vs vs' base Hsame. rewrite !calculate_total_tvl_fst.
  destruct (decode_base base) as [[unit price]|e]; [|reflexivity].
  destruct (format_value unit); [|reflexivity].
  unfold sum_contributions. f_equal. generalize F.zero.
  induction Hsame as [|v v' vs vs' Hv Hsame IH]; intros t; [reflexivity|].
  cbn [fold_left]. unfold add_contribution at 2 4.
  rewrite (contribution_same_fields unit price v v' Hv). apply IH.
Qed.

Lemma total_depends_on_fields_read_witness :
  fst (calculate_total_tvl (H := example_platform) (VTuple [usdc; weth])
         (example_base 100000000 100000000 8))
  = fst (calculate_total_tvl (H := example_platform) (VTuple [usdc_extended; weth])
           (example_base 100000000 100000000 8)).
Proof.
  apply (proj1 (@total_depends_on_fields_read example_platform)).
  constructor; [|constructor; [|constructor]].
  - eexists _, _. repeat split; reflexivity.
  - eexists _, _. repeat split; reflexivity.
Defined.
